(** * CondorAgent: the local-submission cleaner thread

    A shallow embedding of [CondorAgent/post_submit_cleanup.py]
    (class [LocalSubmitCleaner]) and the properties of its cleanup pass.

    The module is Python 2 code.  Its collaborators, the operating system
    ([os.stat], [shutil.rmtree], [os.remove], [glob.glob], [time.time]),
    the [util] module ([getCondorConfigVal], [runCommand2]), [pickle] and
    [logging], are not part of this file: every call to them is a node of a
    program tree, answered by an arbitrary handler over an arbitrary world.
    Theorems quantify over all handlers, hence over every behaviour of the
    collaborators. *)

From Stdlib Require Import Ascii String QArith.
From stdpp Require Import base option list strings pretty gmap.

Open Scope string_scope.
Open Scope list_scope.
Open Scope Z_scope.

(** ** Strings *)

(** The double quote and the line feed, built from their codes. *)
Definition dquote_char : ascii := ascii_of_nat 34.
Definition newline_char : ascii := ascii_of_nat 10.
Definition dq : string := String dquote_char EmptyString.
Definition nl : string := String newline_char EmptyString.

Definition chars (s : string) : list ascii := list_ascii_of_string s.

(** [s.replace(c, '')] for a one-character [c]. *)
Fixpoint remove_char (c : ascii) (s : string) : string :=
  match s with
  | EmptyString => EmptyString
  | String a r => if Ascii.eqb a c then remove_char c r
                  else String a (remove_char c r)
  end.

(** [' '.join(xs)] on strings. *)
Fixpoint join_spaces (xs : list string) : string :=
  match xs with
  | [] => ""
  | [x] => x
  | x :: r => x +:+ " " +:+ join_spaces r
  end.

Definition starts_with_slash (s : string) : bool :=
  match s with
  | String a _ => Ascii.eqb a "/"%char
  | EmptyString => false
  end.

Fixpoint ends_with_slash (s : string) : bool :=
  match s with
  | EmptyString => false
  | String a EmptyString => Ascii.eqb a "/"%char
  | String _ r => ends_with_slash r
  end.

(** ** Python values held by a pickled cluster record *)

Inductive pyval :=
| PyNone
| PyStr (s : string)
| PyInt (z : Z).

(** What [pickle.load] hands back: a dictionary, or some other object
    (named by its type). *)
Inductive pyobj :=
| PDict (d : gmap string pyval)
| POther (tyname : string).

(** An instance of a subclass of [Exception]: its class and [str(e)]. *)
Record exn := Exn { exn_class : string; exn_msg : string }.

(** [d.get(k)] and [d.get(k, dflt)]. *)
Definition dict_get (d : gmap string pyval) (k : string) : pyval :=
  default PyNone (d !! k).
Definition dict_get_or (d : gmap string pyval) (k : string) (dflt : pyval)
  : pyval :=
  default dflt (d !! k).

(** ['%s' % v]. *)
Definition fmt_s (v : pyval) : string :=
  match v with
  | PyNone => "None"
  | PyStr s => s
  | PyInt z => pretty z
  end.

(** Truth value of a Python object in an [if]. *)
Definition truthy (v : pyval) : bool :=
  match v with
  | PyNone => false
  | PyStr s => negb (String.eqb s "")
  | PyInt z => negb (z =? 0)
  end.

Definition type_name (v : pyval) : string :=
  match v with
  | PyNone => "NoneType"
  | PyStr _ => "str"
  | PyInt _ => "int"
  end.

(** [' '.join(cmd)] where the items are arbitrary objects: the first item
    that is not a string raises [TypeError]. *)
Fixpoint first_non_str (i : nat) (xs : list pyval) : option (nat * pyval) :=
  match xs with
  | [] => None
  | PyStr _ :: r => first_non_str (S i) r
  | v :: _ => Some (i, v)
  end.

Definition str_items (xs : list pyval) : list string :=
  omap (fun v => match v with PyStr s => Some s | _ => None end) xs.

Definition py_join (xs : list pyval) : exn + string :=
  match first_non_str 0 xs with
  | Some (i, v) =>
      inl (Exn "TypeError"
             ("sequence item " +:+ pretty i +:+ ": expected string, "
                +:+ type_name v +:+ " found"))
  | None => inr (join_spaces (str_items xs))
  end.

(** ** [os.path] (POSIX flavour) *)

(** [os.path.join(a, b)]. *)
Definition path_join (a b : string) : string :=
  if starts_with_slash b then b
  else if String.eqb a "" || ends_with_slash a then a +:+ b
  else a +:+ "/" +:+ b.

(** [os.path.split(p)[1]]: what follows the last slash. *)
Fixpoint basename_aux (acc : string) (s : string) : string :=
  match s with
  | EmptyString => acc
  | String a r => if Ascii.eqb a "/"%char then basename_aux r r
                  else basename_aux acc r
  end.
Definition basename (p : string) : string := basename_aux p p.

Definition is_absolute (p : string) : bool := starts_with_slash p.

(** [s.startswith(p)]. *)
Fixpoint starts_with (p s : string) : bool :=
  match p, s with
  | EmptyString, _ => true
  | String a p', String b s' => Ascii.eqb a b && starts_with p' s'
  | String _ _, EmptyString => false
  end.

(** ** The regular expression of the queue probe

    The probe compiles ["^\s*%s\s*" % clusterid] with [re.M] and counts
    the matches [re.findall] returns.  The fragment of [re] needed for a
    cluster id made of ordinary characters is embedded here: the line
    anchor, the greedy whitespace star and literal characters, matched by
    backtracking as [re] does. *)

(** [\s] on 8-bit strings: space, and the controls 9 to 13. *)
Definition is_space (a : ascii) : bool :=
  let n := nat_of_ascii a in
  Nat.eqb n 32 || (Nat.leb 9 n && Nat.leb n 13).

(** Characters with a special meaning in a pattern. *)
Definition is_meta (a : ascii) : bool :=
  existsb (Ascii.eqb a) (chars ".^$*+?{}[]\|()").

Inductive atom :=
| ABol                 (* ^ under re.M *)
| ASpaces              (* \s* *)
| AChar (a : ascii).   (* a literal character *)

(** [^] under [re.M]: at the start of the subject or just after a line
    feed.  [prev] is the character before the current position. *)
Definition at_line_start (prev : option ascii) : bool :=
  match prev with
  | None => true
  | Some c => Ascii.eqb c newline_char
  end.

(** Match a pattern at the current position; the answer is the length of
    the match.  The star takes as many characters as it can and gives them
    back one by one when the rest of the pattern fails. *)
Fixpoint match_here (p : list atom) : option ascii → list ascii → option nat :=
  match p with
  | [] => fun _ _ => Some 0%nat
  | ABol :: p' => fun prev s =>
      if at_line_start prev then match_here p' prev s else None
  | AChar a :: p' => fun _ s =>
      match s with
      | c :: s' => if Ascii.eqb c a then S <$> match_here p' (Some c) s'
                   else None
      | [] => None
      end
  | ASpaces :: p' =>
      fix star (prev : option ascii) (s : list ascii) : option nat :=
        match s with
        | c :: s' =>
            if is_space c then
              match star (Some c) s' with
              | Some n => Some (S n)
              | None => match_here p' prev s
              end
            else match_here p' prev s
        | [] => match_here p' prev s
        end
  end.

(** [len(re.findall(p, subject))] for a pattern whose matches are never
    empty: scan from the left; after a match of length [n] the search
    resumes where the match ended.  [skip] counts the characters still
    covered by the last match. *)
Fixpoint findall_count (p : list atom) (prev : option ascii)
    (s : list ascii) (skip : nat) : nat :=
  match s with
  | [] => 0%nat
  | c :: s' =>
      match skip with
      | S k => findall_count p (Some c) s' k
      | O =>
          match match_here p prev s with
          | Some (S n) => S (findall_count p (Some c) s' n)
          | _ => findall_count p (Some c) s' 0%nat
          end
      end
  end.

(** The pattern ["^\s*" + cid + "\s*"], for a non-empty [cid] free of
    special characters. *)
Definition compile_plain (cid : string) : option (list atom) :=
  if String.eqb cid "" || existsb is_meta (chars cid) then None
  else Some ([ABol; ASpaces] ++ map AChar (chars cid) ++ [ASpaces]).

(** What the comment in the source and the specification say the probe
    counts: the output lines that begin, after optional white space, with
    the cluster id.  Used only to compare with the code. *)
Fixpoint lines_of (s : list ascii) : list (list ascii) :=
  match s with
  | [] => []
  | c :: s' =>
      if Ascii.eqb c newline_char then [] :: lines_of s'
      else match lines_of s' with
           | [] => [[c]]
           | l :: ls => (c :: l) :: ls
           end
  end.
Definition split_lines (s : string) : list (list ascii) :=
  lines_of (chars s).

Fixpoint lstrip (l : list ascii) : list ascii :=
  match l with
  | c :: r => if is_space c then lstrip r else l
  | [] => []
  end.

Fixpoint is_prefix (p l : list ascii) : bool :=
  match p, l with
  | [], _ => true
  | a :: p', b :: l' => Ascii.eqb a b && is_prefix p' l'
  | _ :: _, [] => false
  end.

Definition spec_line_count (cid : string) (out : string) : nat :=
  length (filter (fun l => is_prefix (chars cid) (lstrip l) = true)
            (split_lines out)).

(** The character before the position reached after reading [x]. *)
Fixpoint prev_after (prev : option ascii) (x : list ascii) : option ascii :=
  match x with
  | [] => prev
  | c :: r => prev_after (Some c) r
  end.

(** The lines that begin, after white space, with [lit]: all the lines of
    [s] when [s] starts at a line start, else all but the one [s] starts
    in. *)
Definition count_begins (lit : list ascii) (at_start : bool)
    (s : list ascii) : nat :=
  length (filter (fun l => is_prefix lit (lstrip l) = true)
            (if at_start then lines_of s else tl (lines_of s))).

(** Whether the pattern for [lit] matches somewhere: at some line start,
    white space and then [lit] follow. *)
Fixpoint any_match (lit : list ascii) (prev : option ascii)
    (s : list ascii) : bool :=
  match s with
  | [] => false
  | c :: s' =>
      (at_line_start prev && is_prefix lit (lstrip s))
      || any_match lit (Some c) s'
  end.

(** ** Programs over the collaborators *)

Inductive level := Debug | Info | Error.

(** The calls the cleaner makes, indexed by the type of the answer.  A call
    that can raise answers with the exception on the left.  [os.stat] is
    unpacked as a tuple, whose time fields are integers; [time.time()] is a
    fraction of seconds, taken here as a rational. *)
Inductive call : Type → Type :=
| IsSet : call bool                          (* self._stopevent.isSet() *)
| Wait (secs : Z) : call unit                (* self._stopevent.wait(secs) *)
| GetCondorConfigVal (key dflt : string) : call string
| Glob (pathname : string) : call (list string)
| Stat (path : string) : call (exn + Z)      (* mtime field of os.stat *)
| Time : call Q                              (* time.time() *)
| PickleLoad (path : string) : call (exn + pyobj)  (* open, load, close *)
| RunCommand2 (cmd : string) : call (exn + (Z * string * string))
| Rmtree (target : pyval) : call (option exn)  (* shutil.rmtree(target, False) *)
| Remove (path : string) : call (option exn).  (* os.remove(path) *)

Inductive prog (A : Type) : Type :=
| Ret (a : A)
| Raise (e : exn)
| Log (l : level) (msg : string) (k : prog A)
| Do {X : Type} (c : call X) (k : X → prog A).
Arguments Ret {A} a.
Arguments Raise {A} e.
Arguments Log {A} l msg k.
Arguments Do {A X} c k.

Fixpoint prog_bind {A B} (f : A → prog B) (p : prog A) : prog B :=
  match p with
  | Ret a => f a
  | Raise e => Raise e
  | Log l m k => Log l m (prog_bind f k)
  | Do c k => Do c (fun x => prog_bind f (k x))
  end.

#[export] Instance prog_mret : MRet prog := fun A a => Ret a.
#[export] Instance prog_mbind : MBind prog := fun A B f p => prog_bind f p.

Definition log (l : level) (msg : string) : prog unit := Log l msg (Ret tt).
Definition ask {X} (c : call X) : prog X := Do c (fun x => Ret x).
(** A call whose exception propagates. *)
Definition askx {X} (c : call (exn + X)) : prog X :=
  Do c (fun r => match r with inl e => Raise e | inr x => Ret x end).

(** [try: p / except Exception, e: h(e)]. *)
Fixpoint try_except {A} (p : prog A) (h : exn → prog A) : prog A :=
  match p with
  | Ret a => Ret a
  | Raise e => h e
  | Log l m k => Log l m (try_except k h)
  | Do c k => Do c (fun x => try_except (k x) h)
  end.

(** [for x in xs: body(x)]. *)
Fixpoint for_each {X} (xs : list X) (body : X → prog unit) : prog unit :=
  match xs with
  | [] => Ret tt
  | x :: r => body x;; for_each r body
  end.

(** ** Running a program against a handler *)

Definition handler (W : Type) : Type := ∀ X, call X → W → X * W.

(** What an observer sees: log records, and calls with their answers. *)
Inductive event :=
| Logged (l : level) (msg : string)
| EvIsSet (stop : bool)
| EvWait (secs : Z)
| EvConfig (key dflt value : string)
| EvGlob (pathname : string) (matches : list string)
| EvStat (path : string) (r : exn + Z)
| EvTime (now : Q)
| EvLoad (path : string) (r : exn + pyobj)
| EvRun (cmd : string) (r : exn + (Z * string * string))
| EvRmtree (target : pyval) (r : option exn)
| EvRemove (path : string) (r : option exn).

Definition observe {X} (c : call X) : X → event :=
  match c in call X return X → event with
  | IsSet => EvIsSet
  | Wait secs => fun _ => EvWait secs
  | GetCondorConfigVal key dflt => EvConfig key dflt
  | Glob pathname => EvGlob pathname
  | Stat path => EvStat path
  | Time => EvTime
  | PickleLoad path => EvLoad path
  | RunCommand2 cmd => EvRun cmd
  | Rmtree target => EvRmtree target
  | Remove path => EvRemove path
  end.

Inductive outcome (A : Type) : Type :=
| Returned (a : A)
| Raised (e : exn).
Arguments Returned {A} a.
Arguments Raised {A} e.

(** A run yields the trace, each event paired with the world it left, the
    final world and the outcome.  Logging goes to the trace only. *)
Fixpoint exec {W A} (h : handler W) (p : prog A) (w : W)
  : list (event * W) * W * outcome A :=
  match p with
  | Ret a => ([], w, Returned a)
  | Raise e => ([], w, Raised e)
  | Log l m k =>
      let '(t, w', r) := exec h k w in ((Logged l m, w) :: t, w', r)
  | Do c k =>
      let '(x, w1) := h _ c w in
      let '(t, w', r) := exec h (k x) w1 in
      ((observe c x, w1) :: t, w', r)
  end.

Definition trace_of {W A} (x : list (event * W) * W * outcome A)
  : list event := map fst x.1.1.
Definition history_of {W A} (x : list (event * W) * W * outcome A)
  : list (event * W) := x.1.1.
Definition world_of {W A} (x : list (event * W) * W * outcome A) : W := x.1.2.
Definition outcome_of {W A} (x : list (event * W) * W * outcome A)
  : outcome A := x.2.

(** Observations on events. *)
Definition is_rmtree (ev : event) : bool :=
  match ev with EvRmtree _ _ => true | _ => false end.
Definition is_remove (ev : event) : bool :=
  match ev with EvRemove _ _ => true | _ => false end.
Definition is_removal (ev : event) : bool := is_rmtree ev || is_remove ev.
Definition is_wait (ev : event) : bool :=
  match ev with EvWait _ => true | _ => false end.
Definition is_isset (ev : event) : bool :=
  match ev with EvIsSet _ => true | _ => false end.
(** Events of the scan and of the processing of a record. *)
Definition touches_records (ev : event) : bool :=
  match ev with
  | EvGlob _ _ | EvStat _ _ | EvLoad _ _ | EvRun _ _
  | EvRmtree _ _ | EvRemove _ _ => true
  | _ => false
  end.
(** Number of sleeps in a trace: the passes it has entered. *)
Definition sleeps (t : list event) : nat :=
  length (filter (fun ev => is_wait ev = true) t).

(** Events of the probe. *)
Definition is_probe_event (ev : event) : bool :=
  match ev with Logged _ _ | EvRun _ _ => true | _ => false end.

(** Events a step on one record can produce: everything but the calls of
    the loop itself. *)
Definition is_step_event (ev : event) : bool :=
  match ev with
  | EvIsSet _ | EvWait _ | EvConfig _ _ _ | EvGlob _ _ => false
  | _ => true
  end.

Definition is_glob (ev : event) : bool :=
  match ev with EvGlob _ _ => true | _ => false end.

(** The calls by which a step reads the world. *)
Definition is_read_event (ev : event) : bool :=
  match ev with
  | EvStat _ _ | EvTime _ | EvLoad _ _ | EvRun _ _ => true
  | _ => false
  end.

(** An event that names no file but [cfile], and belongs to a step. *)
Definition concerns (cfile : string) (ev : event) : Prop :=
  match ev with
  | EvStat p _ | EvLoad p _ | EvRemove p _ => p = cfile
  | EvIsSet _ | EvWait _ | EvConfig _ _ _ | EvGlob _ _ => False
  | _ => True
  end.

(** The files a trace stats, in order. *)
Fixpoint stat_paths (t : list event) : list string :=
  match t with
  | [] => []
  | EvStat p _ :: r => p :: stat_paths r
  | _ :: r => stat_paths r
  end.

(** ** The cleaner *)

(** [x < y] on clock readings. *)
Definition Qltb (x y : Q) : bool :=
  match (x ?= y)%Q with Lt => true | _ => false end.

(** The fields [__init__] sets. *)
Record LocalSubmitCleaner := {
  _dryrun : bool;
  _sleeptime : Z;
}.

(** The log messages, one function per format string of the source. *)
Definition quoted (s : string) : string := dq +:+ s +:+ dq.

Definition msg_startup : string :=
  "[cleaner] Local submission cleanup thread starting up".
Definition msg_sleeping (secs : Z) : string :=
  "[cleaner] Sleeping for " +:+ pretty secs +:+ " seconds".
Definition msg_no_submit_dir : string :=
  "[cleaner] Could not find a CONDOR_AGENT_SUBMIT_DIR setting for this host"
    +:+ " -- no cleanup performed".
Definition msg_scanning (submitDir : string) : string :=
  "[cleaner] Scanning submit directory '" +:+ submitDir
    +:+ "' for *.cluster files...".
Definition msg_unhandled (e : exn) : string :=
  "[cleaner] Caught unhandled exception: " +:+ exn_msg e.
Definition msg_too_young (name when : string) : string :=
  "[cleaner] ...submission file " +:+ name
    +:+ " is not old enough to be considered (mtime = " +:+ when +:+ ")".
Definition msg_checking (cdata : gmap string pyval) : string :=
  "[cleaner] Checking cluster "
    +:+ fmt_s (dict_get_or cdata "clusterid" (PyStr "Unknown"))
    +:+ " for jobs in queue "
    +:+ fmt_s (dict_get_or cdata "queue" (PyStr "localhost")) +:+ "...".
Definition msg_cleanup (jobs : nat) (tmpdir : pyval) : string :=
  "[cleaner] ...found " +:+ pretty jobs
    +:+ " jobs in the queue, performing cleanup of directory "
    +:+ quoted (fmt_s tmpdir).
Definition msg_rmtree_failed (tmpdir : pyval) (e : exn) : string :=
  "[cleaner] Unable to remove path " +:+ quoted (fmt_s tmpdir)
    +:+ ": " +:+ exn_msg e.
Definition msg_rmtree_done (tmpdir : pyval) : string :=
  "[cleaner] ...removed path " +:+ quoted (fmt_s tmpdir).
Definition msg_remove_failed (cfile : string) (e : exn) : string :=
  "[cleaner] Unable to remove file " +:+ quoted cfile +:+ ": " +:+ exn_msg e.
Definition msg_remove_done (cfile : string) : string :=
  "[cleaner] ...removed file " +:+ quoted cfile.
Definition msg_dry_run_path (tmpdir : pyval) : string :=
  "[cleaner] ...DRY RUN would have removed path " +:+ quoted (fmt_s tmpdir).
Definition msg_dry_run_file (cfile : string) : string :=
  "[cleaner] ...DRY RUN would have removed file " +:+ quoted cfile.
Definition msg_still (jobs : nat) : string :=
  "[cleaner] ...found " +:+ pretty jobs
    +:+ " jobs in the queue still, no cleanup done".
Definition msg_unknown : string :=
  "[cleaner] ...unable to run condor_q to count jobs in queue, "
    +:+ "no clean up done".
Definition msg_running (line : string) : string :=
  "[cleaner] ...running: " +:+ line.
Definition msg_command_error (stderr_value : string) : string :=
  "[cleaner] ...got error running command: " +:+ stderr_value.

Definition is_str (v : pyval) : bool :=
  match v with PyStr _ => true | _ => false end.

(** The command line of the probe for a cluster id and, when one is set,
    a queue name. *)
Definition probe_line (queue : option string) (cid : string) : string :=
  match queue with
  | Some q =>
      "condor_q -name " +:+ q +:+ " -f " +:+ quoted "%d\n"
        +:+ " ClusterID -c " +:+ quoted "JobStatus != 3 && JobStatus != 4"
        +:+ " " +:+ cid
  | None =>
      "condor_q -f " +:+ quoted "%d\n"
        +:+ " ClusterID -c JobStatus != 3 && JobStatus != 4 " +:+ cid
  end.

(** How a bounded observation of the loop ends. *)
Inductive loop_end := Stopped | StillLooping.

Section Cleaner.

(** [time.ctime], a function of the time zone. *)
Variable ctime : Z → string.
(** [len(re.findall(re.compile(pattern, re.M), subject))] for a pattern
    outside the embedded fragment; [re.compile] may raise. *)
Variable re_other : string → string → exn + nat.

(** [len(re.findall(re.compile(r"^\s*%s\s*" % cid, re.M), out))]. *)
Definition count_matches (cid : pyval) (out : string) : exn + nat :=
  match compile_plain (fmt_s cid) with
  | Some p => inr (findall_count p None (chars out) 0)
  | None => re_other ("^\s*" +:+ fmt_s cid +:+ "\s*") out
  end.

(** The argument vector [cmd] of the probe. *)
Definition condor_q_cmd (cdata : gmap string pyval) : list pyval :=
  if truthy (dict_get cdata "queue") then
    [PyStr "condor_q"; PyStr "-name"; dict_get cdata "queue";
     PyStr "-f"; PyStr (quoted "%d\n"); PyStr "ClusterID"; PyStr "-c";
     PyStr (quoted "JobStatus != 3 && JobStatus != 4");
     dict_get cdata "clusterid"]
  else
    [PyStr "condor_q"; PyStr "-f"; PyStr (quoted "%d\n");
     PyStr "ClusterID"; PyStr "-c";
     PyStr "JobStatus != 3 && JobStatus != 4";
     dict_get cdata "clusterid"].

Definition _condorJobsInQueue (cdata : gmap string pyval)
  : prog (option nat) :=
  match py_join (condor_q_cmd cdata) with
  | inl e => Raise e
  | inr line =>
      log Info (msg_running line);;
      '(return_code, stdout_value, stderr_value) ← askx (RunCommand2 line);
      if Nat.ltb 0 (String.length stderr_value) then
        log Error (msg_command_error stderr_value);;
        mret None
      else if return_code =? 0 then
        match count_matches (dict_get cdata "clusterid") stdout_value with
        | inl e => Raise e
        | inr n => mret (Some n)
        end
      else mret None
  end.

(** Lines 129 to 152: what the step does with the count. *)
Definition act_on_count (self : LocalSubmitCleaner) (cfile : string)
    (cdata : gmap string pyval) (jobsInQueue : option nat) : prog unit :=
  match jobsInQueue with
  | Some O =>
      log Info (msg_cleanup 0 (dict_get cdata "tmpdir"));;
      if negb (_dryrun self) then
        r ← ask (Rmtree (dict_get cdata "tmpdir"));
        match r with
        | Some e => log Error (msg_rmtree_failed (dict_get cdata "tmpdir") e)
        | None =>
            log Info (msg_rmtree_done (dict_get cdata "tmpdir"));;
            r' ← ask (Remove cfile);
            match r' with
            | Some e => log Error (msg_remove_failed cfile e)
            | None => log Info (msg_remove_done cfile)
            end
        end
      else
        log Debug (msg_dry_run_path (dict_get cdata "tmpdir"));;
        log Debug (msg_dry_run_file cfile)
  | Some (S n) => log Info (msg_still (S n))
  | None => log Error msg_unknown
  end.

Definition _safeRemoveClusterFiles (self : LocalSubmitCleaner)
    (cfile : string) : prog unit :=
  mtime ← askx (Stat cfile);
  now ← ask Time;
  if Qltb (now - inject_Z mtime) (inject_Z 300) then
    log Info (msg_too_young (basename cfile) (ctime mtime))
  else
    obj ← askx (PickleLoad cfile);
    match obj with
    | POther ty =>
        Raise (Exn "AttributeError"
                 ("'" +:+ ty +:+ "' object has no attribute 'get'"))
    | PDict cdata =>
        log Info (msg_checking cdata);;
        jobsInQueue ← _condorJobsInQueue cdata;
        act_on_count self cfile cdata jobsInQueue
    end.

(** The generator [_locate], as the list of what it yields. *)
Definition _locate (pattern root : string) : prog (list string) :=
  matches ← ask (Glob (path_join root pattern));
  mret (map (path_join root) matches).

(** The per-record boundary of [run]: the [try] around the step. *)
Definition guarded_step (self : LocalSubmitCleaner) (c : string)
  : prog unit :=
  try_except (_safeRemoveClusterFiles self c)
    (fun e => log Error (msg_unhandled e)).

(** One turn of the [while] loop of [run]. *)
Definition pass (self : LocalSubmitCleaner) : prog unit :=
  log Info (msg_sleeping (_sleeptime self));;
  ask (Wait (_sleeptime self));;
  v ← ask (GetCondorConfigVal "CONDOR_AGENT_SUBMIT_DIR" (dq +:+ dq));
  let submitDir := remove_char dquote_char v in
  if String.eqb submitDir "" then log Error msg_no_submit_dir
  else
    log Info (msg_scanning submitDir);;
    cs ← _locate "*.cluster" submitDir;
    for_each cs (guarded_step self).

(** [while not self._stopevent.isSet(): ...], observed for at most
    [fuel] turns. *)
Fixpoint loop (self : LocalSubmitCleaner) (fuel : nat) : prog loop_end :=
  match fuel with
  | O => mret StillLooping
  | S n =>
      stop ← ask IsSet;
      if stop : bool then mret Stopped
      else pass self;; loop self n
  end.

Definition run (self : LocalSubmitCleaner) (fuel : nat) : prog loop_end :=
  log Info msg_startup;;
  loop self fuel.

End Cleaner.

(** ** A small concrete world

    One deterministic handler, used to run the cleaner on examples. *)

Record World := {
  clock : Q;                       (* time.time() *)
  checks_before_stop : nat;        (* isSet answers False that many times *)
  submit_dir : option string;      (* CONDOR_AGENT_SUBMIT_DIR, when set *)
  glob_table : string → list string;
  files : gmap string (Z * option pyobj);  (* mtime, unpickled content *)
  dirs : gset string;
  busy : gset string;              (* directories rmtree fails on *)
  condor_q : string → Z * string * string;
}.

Definition no_such (path : string) : exn :=
  Exn "OSError" ("[Errno 2] No such file or directory: '" +:+ path +:+ "'").

Definition small_handler : handler World := fun X c =>
  match c in call X return World → X * World with
  | IsSet => fun w =>
      match checks_before_stop w with
      | O => (true, w)
      | S n => (false,
                {| clock := clock w; checks_before_stop := n;
                   submit_dir := submit_dir w; glob_table := glob_table w;
                   files := files w; dirs := dirs w; busy := busy w;
                   condor_q := condor_q w |})
      end
  | Wait secs => fun w =>
      (tt, {| clock := (clock w + inject_Z secs)%Q;
              checks_before_stop := checks_before_stop w;
              submit_dir := submit_dir w; glob_table := glob_table w;
              files := files w; dirs := dirs w; busy := busy w;
              condor_q := condor_q w |})
  | GetCondorConfigVal _ dflt => fun w => (default dflt (submit_dir w), w)
  | Glob pathname => fun w => (glob_table w pathname, w)
  | Stat path => fun w =>
      (match files w !! path with
       | Some (mtime, _) => inr mtime
       | None => inl (no_such path)
       end, w)
  | Time => fun w => (clock w, w)
  | PickleLoad path => fun w =>
      (match files w !! path with
       | Some (_, Some obj) => inr obj
       | Some (_, None) => inl (Exn "UnpicklingError" "invalid load key")
       | None => inl (no_such path)
       end, w)
  | RunCommand2 cmd => fun w => (inr (condor_q w cmd), w)
  | Rmtree target => fun w =>
      match target with
      | PyStr d =>
          if decide (d ∈ busy w) then
            (Some (Exn "OSError" "[Errno 16] Device or resource busy"), w)
          else if decide (d ∈ dirs w) then
            (None, {| clock := clock w;
                      checks_before_stop := checks_before_stop w;
                      submit_dir := submit_dir w; glob_table := glob_table w;
                      files := files w; dirs := dirs w ∖ {[d]};
                      busy := busy w; condor_q := condor_q w |})
          else (Some (no_such d), w)
      | _ => (Some (Exn "TypeError" "coercing to Unicode: need string"), w)
      end
  | Remove path => fun w =>
      match files w !! path with
      | Some _ =>
          (None, {| clock := clock w;
                    checks_before_stop := checks_before_stop w;
                    submit_dir := submit_dir w; glob_table := glob_table w;
                    files := delete path (files w); dirs := dirs w;
                    busy := busy w; condor_q := condor_q w |})
      | None => (Some (no_such path), w)
      end
  end.

(** The record of the specification's scenarios: [A.cluster] with
    [clusterid = 42], no queue, [tmpdir = /tmp/work42], ten minutes old. *)
Definition record42 : gmap string pyval :=
  <["clusterid" := PyStr "42"]> (<["tmpdir" := PyStr "/tmp/work42"]> ∅).

Definition world42 (mtime : Z) (out err : string) (rc : Z) (locked : bool)
  : World :=
  {| clock := 1000;
     checks_before_stop := 1;
     submit_dir := Some "/var/submit";
     glob_table := fun p =>
       if String.eqb p "/var/submit/*.cluster" then ["/var/submit/A.cluster"]
       else [];
     files := {[ "/var/submit/A.cluster" := (mtime, Some (PDict record42)) ]};
     dirs := {[ "/tmp/work42" ]};
     busy := if locked then {[ "/tmp/work42" ]} else ∅;
     condor_q := fun _ => (rc, out, err) |}.

(** The same host with [CONDOR_AGENT_SUBMIT_DIR] unset. *)
Definition world_unset : World :=
  {| clock := 1000;
     checks_before_stop := 1;
     submit_dir := None;
     glob_table := fun _ => [];
     files := ∅;
     dirs := ∅;
     busy := ∅;
     condor_q := fun _ => (0, "", "") |}.

(** Two record files, the first of which is not a pickle. *)
Definition world_corrupt : World :=
  {| clock := 1000;
     checks_before_stop := 1;
     submit_dir := Some "/var/submit";
     glob_table := fun p =>
       if String.eqb p "/var/submit/*.cluster"
       then ["/var/submit/B.cluster"; "/var/submit/A.cluster"]
       else [];
     files := {[ "/var/submit/B.cluster" := (-200, None);
                 "/var/submit/A.cluster" := (-200, Some (PDict record42)) ]};
     dirs := {[ "/tmp/work42" ]};
     busy := ∅;
     condor_q := fun _ => (0, "", "") |}.

(** A directory listing alone: [pathname] matches [found]. *)
Definition world_glob (pathname : string) (found : list string) : World :=
  {| clock := 1000;
     checks_before_stop := 1;
     submit_dir := None;
     glob_table := fun p => if String.eqb p pathname then found else [];
     files := ∅;
     dirs := ∅;
     busy := ∅;
     condor_q := fun _ => (0, "", "") |}.


Definition A_cluster : string := "/var/submit/A.cluster".
Definition B_cluster : string := "/var/submit/B.cluster".

Definition no_ctime (t : Z) : string := pretty t.
Definition no_re (pattern subject : string) : exn + nat :=
  inl (Exn "error" "unsupported pattern").

Definition cleaner (dry : bool) : LocalSubmitCleaner :=
  {| _dryrun := dry; _sleeptime := 600 |}.

(** ** Running composed programs *)

Section Exec.
Context {W : Type} (h : handler W).

Lemma exec_bind {A B} (p : prog A) (f : A → prog B) (w : W) :
  exec h (p ≫= f) w =
    match exec h p w with
    | (t, w1, Returned a) =>
        let '(t', w2, r) := exec h (f a) w1 in (t ++ t', w2, r)
    | (t, w1, Raised e) => (t, w1, Raised e)
    end.
Proof.
  revert w. induction p as [a|e|l m k IH|X c k IH]; intros w; simpl.
  - by destruct (exec h (f a) w) as [[t' w2] r].
  - done.
  - change (prog_bind f k) with (k ≫= f). rewrite IH.
    destruct (exec h k w) as [[t w1] [a|e]]; [|done].
    by destruct (exec h (f a) w1) as [[t' w2] r].
  - destruct (h _ c w) as [x w0].
    change (prog_bind f (k x)) with (k x ≫= f). rewrite IH.
    destruct (exec h (k x) w0) as [[t w1] [a|e]]; [|done].
    by destruct (exec h (f a) w1) as [[t' w2] r].
Qed.

Lemma exec_try_except {A} (p : prog A) (handle : exn → prog A) (w : W) :
  exec h (try_except p handle) w =
    match exec h p w with
    | (t, w1, Returned a) => (t, w1, Returned a)
    | (t, w1, Raised e) =>
        let '(t', w2, r) := exec h (handle e) w1 in (t ++ t', w2, r)
    end.
Proof.
  revert w. induction p as [a|e|l m k IH|X c k IH]; intros w; simpl.
  - done.
  - by destruct (exec h (handle e) w) as [[t' w2] r].
  - rewrite IH. destruct (exec h k w) as [[t w1] [a|e]]; [done|].
    by destruct (exec h (handle e) w1) as [[t' w2] r].
  - destruct (h _ c w) as [x w0]. rewrite IH.
    destruct (exec h (k x) w0) as [[t w1] [a|e]]; [done|].
    by destruct (exec h (handle e) w1) as [[t' w2] r].
Qed.

End Exec.

(** ** Paths *)

Lemma length_append (a b : string) :
  String.length (a +:+ b) = (String.length a + String.length b)%nat.
Proof. induction a as [|c a IH]; simpl; [done|]. by rewrite IH. Qed.

Lemma starts_with_split (p s : string) :
  starts_with p s = true → ∃ rest, s = p +:+ rest.
Proof.
  revert s. induction p as [|a p IH]; intros s H; simpl in *.
  { by exists s. }
  destruct s as [|b s]; [done|].
  apply andb_true_iff in H as [Hab Hps].
  apply Ascii.eqb_eq in Hab as ->.
  destruct (IH s Hps) as [rest ->]. by exists rest.
Qed.

(** Joining [root] onto a path gives that path back exactly when the path
    is absolute or [root] is empty. *)
Lemma path_join_fixes (root m : string) :
  path_join root m = m ↔ is_absolute m = true ∨ root = "".
Proof.
  unfold path_join, is_absolute.
  destruct (starts_with_slash m); [by split; [left|]|].
  destruct (String.eqb_spec root "") as [->|Hne]; simpl.
  { by split; [right|]. }
  split; [|by intros [|]].
  intros Heq. exfalso.
  assert (String.length root ≠ 0%nat) by by destruct root.
  destruct (ends_with_slash root);
    apply (f_equal String.length) in Heq;
    rewrite !length_append in Heq; simpl in Heq; lia.
Qed.

(** A path that starts with a non-empty [root] is absolute exactly when
    [root] is. *)
Lemma absolute_of_prefix (root m : string) :
  starts_with root m = true → root ≠ "" →
  is_absolute m = is_absolute root.
Proof.
  intros Hpre Hne. destruct root as [|a root]; [done|].
  destruct m as [|b m]; [done|]. simpl in *.
  apply andb_true_iff in Hpre as [Hab _].
  by apply Ascii.eqb_eq in Hab as ->.
Qed.

(** ** The count of the probe and the lines of the output *)

Section ProbeCount.
(** A cluster id made of ordinary characters: not empty, no white space. *)
Variable lit : list ascii.
Hypothesis lit_nonempty : lit ≠ [].
Hypothesis lit_solid : Forall (fun c => is_space c = false) lit.

Local Abbreviation tail_pattern := (map AChar lit ++ [ASpaces]).
Local Abbreviation pattern := ([ABol; ASpaces] ++ map AChar lit ++ [ASpaces]).

Lemma newline_is_space : is_space newline_char = true.
Proof. reflexivity. Qed.

Lemma spaces_always_match (prev : option ascii) (s : list ascii) :
  ∃ n, match_here [ASpaces] prev s = Some n.
Proof.
  revert prev. induction s as [|c s IH]; intros prev; simpl.
  { by exists 0%nat. }
  destruct (is_space c); [|by exists 0%nat].
  destruct (IH (Some c)) as [n Hn]. simpl in Hn. rewrite Hn. by eexists.
Qed.

Lemma tail_matches (l : list ascii) (prev : option ascii) (s : list ascii) :
  is_prefix l s = true →
  ∃ n, match_here (map AChar l ++ [ASpaces]) prev s = Some (length l + n)%nat.
Proof.
  revert prev s. induction l as [|a l IH]; intros prev s Hpre.
  { apply spaces_always_match. }
  destruct s as [|c s]; [done|]. simpl in Hpre.
  apply andb_true_iff in Hpre as [Hac Hpre].
  apply Ascii.eqb_eq in Hac as ->.
  destruct (IH (Some c) s Hpre) as [n Hn].
  exists n. cbn [map app match_here]. rewrite Ascii.eqb_refl.
  cbn [map app] in Hn. by rewrite Hn.
Qed.

Lemma tail_fails (l : list ascii) (prev : option ascii) (s : list ascii) :
  is_prefix l s = false →
  match_here (map AChar l ++ [ASpaces]) prev s = None.
Proof.
  revert prev s. induction l as [|a l IH]; intros prev s Hpre; [done|].
  destruct s as [|c s]; [done|]. simpl in Hpre.
  cbn [map app match_here]. rewrite Ascii.eqb_sym.
  destruct (Ascii.eqb a c); [|done]. simpl in Hpre.
  specialize (IH (Some c) s Hpre). cbn [map app] in IH. by rewrite IH.
Qed.

(** A white-space character does not open the cluster id. *)
Lemma space_not_prefix (c : ascii) (s : list ascii) :
  is_space c = true → is_prefix lit (c :: s) = false.
Proof.
  intros Hc. destruct lit as [|a l]; [done|]. simpl.
  apply Forall_cons in lit_solid as [Ha _].
  destruct (Ascii.eqb_spec a c) as [->|]; [congruence|done].
Qed.

Lemma star_matches (prev : option ascii) (s : list ascii) :
  is_prefix lit (lstrip s) = true →
  ∃ n, match_here (ASpaces :: tail_pattern) prev s = Some (S n).
Proof.
  revert prev. induction s as [|c s IH]; intros prev Hpre.
  { simpl in Hpre. by destruct lit. }
  cbn [match_here]. simpl in Hpre. destruct (is_space c) eqn:Hc.
  - destruct (IH (Some c) Hpre) as [n Hn]. cbn [match_here] in Hn.
    rewrite Hn. by eexists.
  - destruct (tail_matches lit prev (c :: s) Hpre) as [n Hn].
    rewrite Hn. destruct lit; [done|]. by eexists.
Qed.

Lemma star_fails (prev : option ascii) (s : list ascii) :
  is_prefix lit (lstrip s) = false →
  match_here (ASpaces :: tail_pattern) prev s = None.
Proof.
  revert prev. induction s as [|c s IH]; intros prev Hpre.
  { cbn [match_here]. by apply tail_fails. }
  cbn [match_here]. simpl in Hpre. destruct (is_space c) eqn:Hc.
  - specialize (IH (Some c) Hpre). cbn [match_here] in IH. rewrite IH.
    apply tail_fails. by apply space_not_prefix.
  - by apply tail_fails.
Qed.

Lemma pattern_matches (prev : option ascii) (s : list ascii) :
  at_line_start prev && is_prefix lit (lstrip s) = true →
  ∃ n, match_here pattern prev s = Some (S n).
Proof.
  intros [Hstart Hpre]%andb_true_iff.
  cbn [app match_here]. rewrite Hstart. by apply star_matches.
Qed.

Lemma pattern_fails (prev : option ascii) (s : list ascii) :
  at_line_start prev && is_prefix lit (lstrip s) = false →
  match_here pattern prev s = None.
Proof.
  intros H. cbn [app match_here].
  destruct (at_line_start prev); [|done]. by apply star_fails.
Qed.

(** The count is zero exactly when the pattern matches nowhere. *)
Lemma findall_zero (prev : option ascii) (s : list ascii) :
  findall_count pattern prev s 0 = 0%nat ↔ any_match lit prev s = false.
Proof.
  revert prev. induction s as [|c s IH]; intros prev; [done|].
  cbn [findall_count any_match].
  destruct (at_line_start prev && is_prefix lit (lstrip (c :: s))) eqn:Hm.
  - destruct (pattern_matches prev (c :: s) Hm) as [n ->]. done.
  - rewrite (pattern_fails prev (c :: s) Hm). apply IH.
Qed.

(** The first line of a text, and the text cut into lines. *)
Lemma lines_of_cons (c : ascii) (s : list ascii) :
  Ascii.eqb c newline_char = false →
  lines_of (c :: s) = (c :: hd [] (lines_of s)) :: tl (lines_of s).
Proof. intros Hc. simpl. rewrite Hc. by destruct (lines_of s). Qed.

Lemma solid_not_newline (c : ascii) :
  is_space c = false → Ascii.eqb c newline_char = false.
Proof.
  intros Hc. destruct (Ascii.eqb_spec c newline_char) as [->|]; [|done].
  by rewrite newline_is_space in Hc.
Qed.

Lemma prefix_of_first_line (l s : list ascii) :
  is_prefix l (hd [] (lines_of s)) = true → is_prefix l s = true.
Proof.
  revert l. induction s as [|c s IH]; intros l; [done|].
  destruct l as [|a l]; [done|].
  destruct (Ascii.eqb c newline_char) eqn:Hc.
  { simpl. by rewrite Hc. }
  rewrite lines_of_cons by done. simpl.
  intros [-> Hl]%andb_true_iff. by apply IH.
Qed.

Lemma prefix_in_first_line (l s : list ascii) :
  Forall (fun c => is_space c = false) l →
  is_prefix l s = true → is_prefix l (hd [] (lines_of s)) = true.
Proof.
  intros Hl. revert s. induction Hl as [|a l Ha _ IH]; intros s; [done|].
  destruct s as [|c s]; [done|]. simpl.
  intros [Hac Hpre]%andb_true_iff.
  pose proof Hac as Heq. apply Ascii.eqb_eq in Heq as <-.
  rewrite (solid_not_newline _ Ha).
  assert (hd [] match lines_of s with
                | [] => [[a]]
                | l0 :: ls => (a :: l0) :: ls
                end = a :: hd [] (lines_of s)) as -> by by destruct (lines_of s).
  simpl. rewrite Ascii.eqb_refl. by apply IH.
Qed.

Local Abbreviation begins := (fun l => is_prefix lit (lstrip l)).

Lemma first_line_begins (s : list ascii) :
  begins (hd [] (lines_of s)) = true → begins s = true.
Proof.
  induction s as [|c s IH]; [done|].
  destruct (Ascii.eqb c newline_char) eqn:Hc.
  { simpl. rewrite Hc. simpl. by destruct lit. }
  rewrite lines_of_cons by done. simpl.
  destruct (is_space c); [done|]. intros Hpre.
  apply prefix_of_first_line. by rewrite lines_of_cons.
Qed.

Lemma begins_some_line (s : list ascii) :
  begins s = true → existsb begins (lines_of s) = true.
Proof.
  induction s as [|c s IH]; intros Hpre.
  { simpl in Hpre. by destruct lit. }
  destruct (Ascii.eqb_spec c newline_char) as [->|Hc].
  { cbn [lines_of]. rewrite Ascii.eqb_refl. cbn [existsb].
    apply orb_true_iff. right. apply IH.
    cbn [lstrip] in Hpre. by rewrite newline_is_space in Hpre. }
  apply Ascii.eqb_neq in Hc. rewrite lines_of_cons by done.
  cbn [existsb]. apply orb_true_iff. simpl in Hpre. simpl.
  destruct (is_space c) eqn:Hsp.
  - specialize (IH Hpre). destruct (lines_of s) as [|l ls]; [done|].
    simpl in *. by apply orb_true_iff in IH.
  - left. apply (prefix_in_first_line lit (c :: s)) in Hpre; [|done].
    by rewrite lines_of_cons in Hpre.
Qed.

(** The pattern matches somewhere exactly when some line begins, after
    white space, with the cluster id.  Off a line start the rest of the
    current line does not count. *)
Lemma any_match_lines (prev : option ascii) (s : list ascii) :
  any_match lit prev s =
    if at_line_start prev then existsb begins (lines_of s)
    else existsb begins (tl (lines_of s)).
Proof.
  revert prev. induction s as [|c s IH]; intros prev.
  { by destruct (at_line_start prev). }
  cbn [any_match]. rewrite IH. cbn [at_line_start].
  destruct (Ascii.eqb_spec c newline_char) as [->|Hc].
  - cbn [lines_of]. rewrite Ascii.eqb_refl. cbn [existsb tl].
    assert (begins [] = false) as -> by by destruct lit.
    destruct (at_line_start prev); [|done]. simpl.
    destruct (is_prefix lit (lstrip s)) eqn:Hpre; [|done].
    simpl. symmetry. by apply begins_some_line.
  - apply Ascii.eqb_neq in Hc. rewrite lines_of_cons by done.
    cbn [existsb tl]. destruct (at_line_start prev); [|done]. cbn [andb].
    destruct (begins (c :: hd [] (lines_of s))) eqn:Hfirst.
    + rewrite (first_line_begins (c :: s)); [done|].
      by rewrite lines_of_cons.
    + cbn [orb]. destruct (is_prefix lit (lstrip (c :: s))) eqn:Hpre; [|done].
      apply begins_some_line in Hpre. rewrite lines_of_cons in Hpre by done.
      cbn [existsb] in Hpre. rewrite Hfirst in Hpre.
      cbn [orb] in Hpre |- *. by rewrite Hpre.
Qed.

Lemma no_line_counted (ls : list (list ascii)) :
  length (filter (fun l => begins l = true) ls) = 0%nat
  ↔ existsb begins ls = false.
Proof.
  induction ls as [|l ls IH]; [done|]. cbn [existsb].
  destruct (begins l) eqn:Hl.
  - rewrite filter_cons_True by done. done.
  - rewrite filter_cons_False by congruence. done.
Qed.

(** What [findall] counts is zero exactly when no line of the text begins,
    after white space, with the cluster id. *)
Lemma findall_zero_iff_no_line (s : list ascii) :
  findall_count pattern None s 0 = 0%nat
  ↔ length (filter (fun l => begins l = true) (lines_of s)) = 0%nat.
Proof. by rewrite findall_zero, any_match_lines, no_line_counted. Qed.

(** *** The count never exceeds the number of lines *)

Lemma spaces_extent (prev : option ascii) (s : list ascii) :
  ∃ ws r, s = ws ++ r
          ∧ Forall (fun c => is_space c = true) ws
          ∧ match_here [ASpaces] prev s = Some (length ws).
Proof.
  revert prev. induction s as [|c s IH]; intros prev.
  { by exists [], []. }
  cbn [match_here]. destruct (is_space c) eqn:Hc.
  - destruct (IH (Some c)) as (ws & r & -> & Hws & Hm).
    cbn [match_here] in Hm. rewrite Hm.
    exists (c :: ws), r. repeat split; [by constructor].
  - exists [], (c :: s). by repeat split.
Qed.

Lemma tail_extent (l : list ascii) (prev : option ascii) (s : list ascii) :
  is_prefix l s = true →
  ∃ ws r, s = l ++ ws ++ r
          ∧ Forall (fun c => is_space c = true) ws
          ∧ match_here (map AChar l ++ [ASpaces]) prev s
            = Some (length (l ++ ws)).
Proof.
  revert prev s. induction l as [|a l IH]; intros prev s Hpre.
  { apply spaces_extent. }
  destruct s as [|c s]; [done|]. simpl in Hpre.
  apply andb_true_iff in Hpre as [Hac Hpre].
  apply Ascii.eqb_eq in Hac as ->.
  destruct (IH (Some c) s Hpre) as (ws & r & -> & Hws & Hm).
  exists ws, r. repeat split; [done|].
  cbn [map app match_here]. rewrite Ascii.eqb_refl.
  cbn [map app] in Hm. by rewrite Hm.
Qed.

Lemma star_extent (prev : option ascii) (s : list ascii) :
  is_prefix lit (lstrip s) = true →
  ∃ ws1 ws2 r,
    s = ws1 ++ lit ++ ws2 ++ r
    ∧ Forall (fun c => is_space c = true) ws1
    ∧ Forall (fun c => is_space c = true) ws2
    ∧ match_here (ASpaces :: tail_pattern) prev s
      = Some (length (ws1 ++ lit ++ ws2)).
Proof.
  revert prev. induction s as [|c s IH]; intros prev Hpre.
  { simpl in Hpre. by destruct lit. }
  cbn [match_here]. simpl in Hpre. destruct (is_space c) eqn:Hc.
  - destruct (IH (Some c) Hpre) as (ws1 & ws2 & r & -> & H1 & H2 & Hm).
    cbn [match_here] in Hm. rewrite Hm.
    exists (c :: ws1), ws2, r. repeat split; [by constructor|done].
  - destruct (tail_extent lit prev (c :: s) Hpre) as (ws2 & r & Hs & H2 & Hm).
    rewrite Hm. exists [], ws2, r. by repeat split.
Qed.

Lemma findall_skip (p : list atom) (prev : option ascii) (s : list ascii)
    (k : nat) :
  findall_count p prev s k
  = findall_count p (prev_after prev (take k s)) (drop k s) 0.
Proof.
  revert prev k. induction s as [|c s IH]; intros prev k.
  { by destruct k. }
  destruct k as [|k]; [done|]. cbn [findall_count take drop prev_after].
  apply IH.
Qed.

Lemma prev_after_app (prev : option ascii) (x y : list ascii) :
  prev_after prev (x ++ y) = prev_after (prev_after prev x) y.
Proof. revert prev. induction x as [|c x IH]; intros prev; [done|]. apply IH. Qed.

Lemma prev_after_solid (prev : option ascii) (l : list ascii) :
  l ≠ [] → Forall (fun c => is_space c = false) l →
  at_line_start (prev_after prev l) = false.
Proof.
  intros Hne Hl. revert prev. induction Hl as [|a l Ha Hl IH]; intros prev.
  { done. }
  destruct l as [|b l].
  - simpl. by apply solid_not_newline.
  - change (prev_after prev (a :: b :: l))
      with (prev_after (Some a) (b :: l)). by apply IH.
Qed.

Lemma count_begins_newline (b : bool) (s : list ascii) :
  count_begins lit b (newline_char :: s) = count_begins lit true s.
Proof.
  unfold count_begins. cbn [lines_of]. rewrite Ascii.eqb_refl.
  destruct b; [|done]. cbn [tl]. rewrite filter_cons_False; [done|].
  cbn [lstrip]. by destruct lit.
Qed.

Lemma count_begins_inside (c : ascii) (s : list ascii) :
  Ascii.eqb c newline_char = false →
  count_begins lit false (c :: s) = count_begins lit false s.
Proof.
  intros Hc. unfold count_begins. by rewrite lines_of_cons.
Qed.

Lemma count_begins_blank (c : ascii) (s : list ascii) :
  Ascii.eqb c newline_char = false → is_space c = true →
  count_begins lit true (c :: s) = count_begins lit true s.
Proof.
  intros Hc Hsp. unfold count_begins. rewrite lines_of_cons by done.
  destruct (lines_of s) as [|l ls]; cbn [hd tl].
  - rewrite filter_cons_False; [done|]. cbn [lstrip]. rewrite Hsp.
    cbn [lstrip]. by destruct lit.
  - destruct (is_prefix lit (lstrip l)) eqn:Hl.
    + rewrite !filter_cons_True; [done|done|]. cbn [lstrip]. by rewrite Hsp.
    + rewrite !filter_cons_False; [done|congruence|].
      cbn [lstrip]. rewrite Hsp. congruence.
Qed.

Lemma count_begins_mono (s : list ascii) :
  (count_begins lit false s ≤ count_begins lit true s)%nat.
Proof.
  unfold count_begins. destruct (lines_of s) as [|l ls]; [done|]. cbn [tl].
  destruct (is_prefix lit (lstrip l)) eqn:Hl.
  - rewrite filter_cons_True by done. simpl. lia.
  - rewrite filter_cons_False by congruence. done.
Qed.

Lemma count_begins_solid (l y : list ascii) :
  Forall (fun c => is_space c = false) l →
  count_begins lit false (l ++ y) = count_begins lit false y.
Proof.
  induction 1 as [|a l Ha _ IH]; [done|]. cbn [app].
  rewrite count_begins_inside; [done|]. by apply solid_not_newline.
Qed.

Lemma is_prefix_app (l y : list ascii) : is_prefix l (l ++ y) = true.
Proof.
  induction l as [|a l IH]; [done|]. simpl. by rewrite Ascii.eqb_refl.
Qed.

Lemma count_begins_lit (y : list ascii) :
  count_begins lit true (lit ++ y) = S (count_begins lit false y).
Proof.
  rewrite <- (count_begins_solid lit y) by done.
  pose proof (prefix_in_first_line lit (lit ++ y) lit_solid
                (is_prefix_app lit y)) as Hfirst.
  unfold count_begins.
  destruct lit as [|a l] eqn:Hlit; [done|].
  apply Forall_cons in lit_solid as [Ha _].
  cbn [app] in *. rewrite lines_of_cons in * by by apply solid_not_newline.
  cbn [hd tl] in *. rewrite filter_cons_True; [done|].
  cbn [lstrip]. by rewrite Ha.
Qed.

Lemma count_begins_spaces_start (ws r : list ascii) :
  Forall (fun c => is_space c = true) ws →
  count_begins lit true (ws ++ r) = count_begins lit true r.
Proof.
  induction 1 as [|c ws Hc _ IH]; [done|]. cbn [app].
  destruct (Ascii.eqb_spec c newline_char) as [->|Hne].
  - by rewrite count_begins_newline.
  - apply Ascii.eqb_neq in Hne. by rewrite count_begins_blank.
Qed.

Lemma count_begins_spaces (b : bool) (prev : option ascii)
    (ws r : list ascii) :
  Forall (fun c => is_space c = true) ws →
  (at_line_start prev = true → b = true) →
  (count_begins lit (at_line_start (prev_after prev ws)) r
   ≤ count_begins lit b (ws ++ r))%nat.
Proof.
  intros Hws. revert b prev.
  induction Hws as [|c ws Hc _ IH]; intros b prev Hb; cbn [app prev_after].
  { destruct (at_line_start prev); [by rewrite Hb|].
    destruct b; [apply count_begins_mono|done]. }
  destruct (Ascii.eqb_spec c newline_char) as [->|Hne].
  - rewrite count_begins_newline. by apply IH.
  - apply Ascii.eqb_neq in Hne.
    assert (count_begins lit b (c :: ws ++ r) = count_begins lit b (ws ++ r))
      as ->.
    { destruct b; [by apply count_begins_blank|by apply count_begins_inside]. }
    apply IH. cbn [at_line_start]. by rewrite Hne.
Qed.

Lemma pattern_unfold (prev : option ascii) (s : list ascii) :
  match_here pattern prev s =
    if at_line_start prev then match_here (ASpaces :: tail_pattern) prev s
    else None.
Proof. reflexivity. Qed.

(** Between two searches [findall] has moved past a whole match, which
    holds the cluster id at the head of a line of its own: the count stays
    below the number of lines that begin with the id. *)
Lemma findall_at_most_lines (n : nat) (s : list ascii) (prev : option ascii) :
  (length s ≤ n)%nat →
  (findall_count pattern prev s 0
   ≤ count_begins lit (at_line_start prev) s)%nat.
Proof.
  revert s prev. induction n as [|n IH]; intros s prev Hlen.
  { destruct s; [simpl; lia|simpl in Hlen; lia]. }
  destruct s as [|c s]; [simpl; lia|]. cbn [findall_count].
  destruct (at_line_start prev && is_prefix lit (lstrip (c :: s))) eqn:Hm.
  - apply andb_true_iff in Hm as [Hstart Hpre].
    destruct (star_extent prev (c :: s) Hpre)
      as (ws1 & ws2 & r & Hs & H1 & H2 & Hmatch).
    rewrite pattern_unfold, Hstart, Hmatch.
    destruct (length (ws1 ++ lit ++ ws2)) as [|m] eqn:Hm.
    { rewrite !length_app in Hm. destruct lit; [done|simpl in Hm; lia]. }
    change (findall_count pattern (Some c) s m)
      with (findall_count pattern prev (c :: s) (S m)).
    rewrite findall_skip, <- Hm, Hs.
    replace (ws1 ++ lit ++ ws2 ++ r) with ((ws1 ++ lit ++ ws2) ++ r)
      by by rewrite <- !app_assoc.
    rewrite take_app_length, drop_app_length.
    rewrite <- !app_assoc, count_begins_spaces_start by done.
    rewrite count_begins_lit.
    apply le_n_S. etrans; [apply IH|].
    { apply (f_equal length) in Hs. rewrite !length_app in Hs.
      simpl in Hs, Hlen. rewrite !length_app in Hm. lia. }
    rewrite (app_assoc ws1), prev_after_app.
    apply count_begins_spaces; [done|].
    rewrite prev_after_app, prev_after_solid; done.
  - rewrite pattern_fails by done.
    etrans; [apply IH; simpl in Hlen; lia|]. cbn [at_line_start].
    destruct (Ascii.eqb_spec c newline_char) as [->|Hne].
    + by rewrite count_begins_newline.
    + apply Ascii.eqb_neq in Hne. rewrite <- (count_begins_inside c s Hne).
      destruct (at_line_start prev); [apply count_begins_mono|done].
Qed.

End ProbeCount.

(** For a cluster id of ordinary characters the probe's count is zero
    exactly when no output line begins with the id: the lines the pattern
    misses always follow a line it has counted, so the decision to remove
    is the one the line count would give. *)
Lemma count_zero_iff_no_line (re_other : string → string → exn + nat)
    (cid out : string) :
  cid ≠ "" →
  Forall (fun c => is_space c = false) (chars cid) →
  existsb is_meta (chars cid) = false →
  count_matches re_other (PyStr cid) out = inr 0%nat
  ↔ spec_line_count cid out = 0%nat.
Proof.
  intros Hne Hsolid Hplain. unfold count_matches, compile_plain.
  cbn [fmt_s]. apply String.eqb_neq in Hne as Hne'.
  rewrite Hne', Hplain. cbn [orb].
  unfold spec_line_count, split_lines.
  assert (chars cid ≠ []) as Hchars by by destruct cid.
  pose proof (findall_zero_iff_no_line (chars cid) Hchars Hsolid (chars out))
    as Hiff.
  cbn [app] in Hiff |- *. rewrite <- Hiff.
  split; [by intros [= ->]|by intros ->].
Qed.

(** For a cluster id of ordinary characters the count is at most the
    number of output lines that begin with the id. *)
Lemma count_at_most_lines (re_other : string → string → exn + nat)
    (cid out : string) :
  cid ≠ "" →
  Forall (fun c => is_space c = false) (chars cid) →
  existsb is_meta (chars cid) = false →
  ∃ n, count_matches re_other (PyStr cid) out = inr n
       ∧ (n ≤ spec_line_count cid out)%nat.
Proof.
  intros Hne Hsolid Hplain. unfold count_matches, compile_plain.
  cbn [fmt_s]. apply String.eqb_neq in Hne as Hne'.
  rewrite Hne', Hplain. cbn [orb].
  eexists. split; [reflexivity|].
  assert (chars cid ≠ []) as Hchars by by destruct cid.
  apply (findall_at_most_lines (chars cid) Hchars Hsolid
           (length (chars out)) (chars out) None). done.
Qed.

(** ** Properties of the cleaner *)

(** Membership in a trace that has been computed. *)
Ltac elem_cases :=
  repeat match goal with
    | H : _ ∈ [] |- _ => by apply elem_of_nil in H
    | H : _ ∈ _ :: _ |- _ => apply elem_of_cons in H as [H|H]
    | H : _ ∈ _ ++ _ |- _ => apply elem_of_app in H as [H|H]
    end.

(** Find an event in a computed trace. *)
Ltac elem_find :=
  solve [repeat first
           [apply list_elem_of_here
           |apply list_elem_of_further
           |apply elem_of_app; right]].

Lemma split_at_cons {A} (pre post l : list A) (x a : A) :
  a :: l = pre ++ x :: post →
  (pre = [] ∧ x = a ∧ post = l)
  ∨ ∃ pre', pre = a :: pre' ∧ l = pre' ++ x :: post.
Proof.
  destruct pre as [|b pre']; simpl; intros H; simplify_eq; [by left|].
  right. by exists pre'.
Qed.

(** Every way of cutting a computed trace at one of its events. *)
Ltac split_cases H :=
  repeat match type of H with
    | [] = _ ++ _ :: _ => by apply app_cons_not_nil in H
    | _ :: _ = _ ++ _ :: _ =>
        apply split_at_cons in H as [(-> & ? & ?)|(? & -> & H)]
    end.

Lemma cut_after_prefix {A} (P : A → bool) (l1 l2 pre post : list A) (x : A) :
  Forall (fun a => P a = false) l1 →
  P x = true →
  l1 ++ l2 = pre ++ x :: post →
  ∃ pre', pre = l1 ++ pre' ∧ l2 = pre' ++ x :: post.
Proof.
  intros Hl1 Hx. revert pre.
  induction Hl1 as [|a l1 Ha _ IH]; intros pre Heq; simpl in *.
  - by exists pre.
  - destruct pre as [|b pre]; simpl in *; simplify_eq.
    + congruence.
    + destruct (IH pre) as (pre' & -> & ->); [done|]. by exists pre'.
Qed.

Lemma elem_of_map_fst {A B} (l : list (A * B)) (a : A) (b : B) :
  (a, b) ∈ l → a ∈ map fst l.
Proof.
  rewrite !list_elem_of_In. intros Hin. by apply (in_map fst) in Hin.
Qed.

Lemma Forall_false_Exists_true {A} (P : A → bool) (l : list A) :
  Forall (fun a => P a = false) l → ¬ Exists (fun a => P a = true) l.
Proof.
  intros Hall Hex. rewrite Forall_forall in Hall.
  apply Exists_exists in Hex as (a & Hin & Ha).
  specialize (Hall a Hin). congruence.
Qed.

(** Every event of a computed trace that satisfies a test. *)
Ltac exists_cases H :=
  rewrite ?map_app in H; simpl in H;
  repeat match type of H with
    | Exists _ [] => by apply Exists_nil in H
    | Exists _ (_ :: _) =>
        apply Exists_cons in H as [H|H]; [try (simpl in H; discriminate)|]
    | Exists _ (_ ++ _) => apply Exists_app in H as [H|H]
    end.

Lemma stat_paths_app (t1 t2 : list event) :
  stat_paths (t1 ++ t2) = stat_paths t1 ++ stat_paths t2.
Proof.
  induction t1 as [|ev t1 IH]; [done|]. destruct ev; simpl; by rewrite ?IH.
Qed.

Lemma sleeps_app (t1 t2 : list event) :
  sleeps (t1 ++ t2) = (sleeps t1 + sleeps t2)%nat.
Proof. unfold sleeps. by rewrite filter_app, length_app. Qed.

Lemma sleeps_none (t : list event) :
  Forall (fun ev => is_isset ev = false ∧ is_wait ev = false) t →
  sleeps t = 0%nat.
Proof.
  unfold sleeps. induction 1 as [|ev t [_ Hev] _ IH]; [done|].
  rewrite filter_cons_False; [done|congruence].
Qed.

Lemma Qltb_lt (x y : Q) : Qltb x y = true ↔ (x < y)%Q.
Proof.
  unfold Qltb. rewrite Qlt_alt. destruct (x ?= y)%Q; split; congruence.
Qed.

Lemma ltb_length_empty (s : string) :
  Nat.ltb 0 (String.length s) = false ↔ s = "".
Proof. destruct s; cbn; split; congruence. Qed.

Section Properties.
Context {W : Type} (h : handler W).
Variable ctime : Z → string.
Variable re_other : string → string → exn + nat.

Local Abbreviation probe := (_condorJobsInQueue re_other).
Local Abbreviation step := (_safeRemoveClusterFiles ctime re_other).

(** The probe logs and runs the command, nothing else. *)
Lemma probe_events (cdata : gmap string pyval) (w : W) :
  Forall (fun ev => is_probe_event ev = true) (trace_of (exec h (probe cdata) w)).
Proof.
  unfold _condorJobsInQueue, trace_of.
  destruct (py_join (condor_q_cmd cdata)) as [e|line]; simpl; [constructor|].
  destruct (h _ (RunCommand2 line) w) as [[e|[[rc out] err]] w1]; simpl.
  { repeat constructor. }
  destruct (Nat.ltb 0 (String.length err)); simpl; [repeat constructor|].
  destruct (rc =? 0); simpl; [|repeat constructor].
  destruct (count_matches _ _ _); simpl; repeat constructor.
Qed.

(** C4.  Whatever the external command answers, the probe returns the
    unknown signal ([None]) exactly when the error stream is not empty or
    the exit code is not zero. *)
Theorem C4_unknown_iff_error_stream_or_exit_code
    (cdata : gmap string pyval) (w : W)
    (cmd : string) (rc : Z) (out err : string) :
  EvRun cmd (inr (rc, out, err)) ∈ trace_of (exec h (probe cdata) w) →
  outcome_of (exec h (probe cdata) w) = Returned None
  ↔ (err ≠ "" ∨ rc ≠ 0).
Proof.
  unfold _condorJobsInQueue, trace_of, outcome_of.
  destruct (py_join (condor_q_cmd cdata)) as [e|line]; simpl.
  { intros Hin. elem_cases. }
  destruct (h _ (RunCommand2 line) w) as [[e|[[rc' out'] err']] w1]; simpl.
  { intros Hin. elem_cases; simplify_eq. }
  destruct (Nat.ltb 0 (String.length err')) eqn:Herr; simpl.
  { intros Hin. elem_cases; simplify_eq. split; [|done].
    intros _. left. intros ->. by cbn in Herr. }
  apply ltb_length_empty in Herr as ->.
  destruct (rc' =? 0) eqn:Hrc; simpl.
  - apply Z.eqb_eq in Hrc as ->.
    destruct (count_matches _ _ _) as [e|n]; simpl;
      intros Hin; elem_cases; simplify_eq;
      (split; [done|intros [?|?]; done]).
  - apply Z.eqb_neq in Hrc.
    intros Hin. elem_cases; simplify_eq. split; [|done]. by right.
Qed.

(** C3.  A record file younger than 300 seconds stops at the age guard:
    the step consists of the [os.stat] and [time.time] reads and one
    info-level log record; the record is not loaded, the queue is not
    probed, nothing is removed, whatever the queue would have answered. *)
Theorem C3_age_guard (self : LocalSubmitCleaner) (cfile : string)
    (w w1 w2 : W) (mtime : Z) (now : Q) :
  h _ (Stat cfile) w = (inr mtime, w1) →
  h _ Time w1 = (now, w2) →
  (now - inject_Z mtime < inject_Z 300)%Q →
  exec h (step self cfile) w =
    ([(EvStat cfile (inr mtime), w1);
      (EvTime now, w2);
      (Logged Info (msg_too_young (basename cfile) (ctime mtime)), w2)],
     w2, Returned tt).
Proof.
  intros Hstat Htime Hyoung. apply Qltb_lt in Hyoung.
  unfold _safeRemoveClusterFiles. simpl.
  rewrite Hstat. simpl. rewrite Htime. simpl. by rewrite Hyoung.
Qed.

(** The step, laid out along its early exits. *)
Lemma exec_step (self : LocalSubmitCleaner) (cfile : string) (w : W) :
  exec h (step self cfile) w =
    match h _ (Stat cfile) w with
    | (inl e, w1) => ([(EvStat cfile (inl e), w1)], w1, Raised e)
    | (inr mtime, w1) =>
        let '(now, w2) := h _ Time w1 in
        let seen := [(EvStat cfile (inr mtime), w1); (EvTime now, w2)] in
        if Qltb (now - inject_Z mtime) (inject_Z 300) then
          (seen ++ [(Logged Info
                       (msg_too_young (basename cfile) (ctime mtime)), w2)],
           w2, Returned tt)
        else
          let '(r, w3) := h _ (PickleLoad cfile) w2 in
          let loaded := seen ++ [(EvLoad cfile r, w3)] in
          match r with
          | inl e => (loaded, w3, Raised e)
          | inr (POther ty) =>
              (loaded, w3,
               Raised (Exn "AttributeError"
                         ("'" +:+ ty +:+ "' object has no attribute 'get'")))
          | inr (PDict cdata) =>
              let pre := loaded ++ [(Logged Info (msg_checking cdata), w3)] in
              match exec h (probe cdata) w3 with
              | (tp, w4, Raised e) => (pre ++ tp, w4, Raised e)
              | (tp, w4, Returned jobs) =>
                  let '(ta, w5, r) :=
                    exec h (act_on_count self cfile cdata jobs) w4 in
                  (pre ++ tp ++ ta, w5, r)
              end
          end
    end.
Proof.
  unfold _safeRemoveClusterFiles. simpl.
  destruct (h _ (Stat cfile) w) as [[e|mtime] w1]; simpl; [done|].
  destruct (h _ Time w1) as [now w2]; simpl.
  destruct (Qltb _ _); simpl; [done|].
  destruct (h _ (PickleLoad cfile) w2) as [[e|[cdata|ty]] w3]; simpl;
    [done| |done].
  rewrite exec_bind.
  destruct (exec h (probe cdata) w3) as [[tp w4] [jobs|e]]; [|done].
  by destruct (exec h (act_on_count self cfile cdata jobs) w4) as [[ta w5] r].
Qed.

Lemma probe_event_in (cdata : gmap string pyval) (w w1 : W) (ev : event) :
  (ev, w1) ∈ (exec h (probe cdata) w).1.1 → is_probe_event ev = true.
Proof.
  intros Hin. pose proof (probe_events cdata w) as Hall.
  rewrite Forall_forall in Hall. apply Hall. unfold trace_of.
  by apply elem_of_map_fst in Hin.
Qed.

Lemma probe_never_removes (cdata : gmap string pyval) (w : W) :
  Forall (fun ev => is_removal ev = false)
    (trace_of (exec h (probe cdata) w)).
Proof.
  eapply Forall_impl; [apply probe_events|]. by intros [].
Qed.

(** C1.  In one step the record file is removed only after [rmtree] of
    its work directory has succeeded in that step; when [rmtree] fails
    the step makes no [os.remove] call at all and ends in the very world
    the failed [rmtree] left, so the record file stays. *)
Theorem C1_record_file_outlives_failed_work_dir_removal
    (self : LocalSubmitCleaner) (cfile : string) (w : W) :
  let res := exec h (step self cfile) w in
  (∀ pre p r post,
      trace_of res = pre ++ EvRemove p r :: post →
      p = cfile ∧ ∃ d, EvRmtree d None ∈ pre)
  ∧ (∀ d e w1,
      (EvRmtree d (Some e), w1) ∈ history_of res →
      Forall (fun ev => is_remove ev = false) (trace_of res)
      ∧ world_of res = w1).
Proof.
  intros res. subst res. rewrite exec_step.
unfold trace_of, world_of, history_of.
  destruct (h _ (Stat cfile) w) as [[e|mtime] w1]; simpl.
  { split; [intros pre p r post H; split_cases H; simplify_eq
           |intros d e' w' H; elem_cases; simplify_eq]. }
  destruct (h _ Time w1) as [now w2]; simpl.
  destruct (Qltb _ _); simpl.
  { split; [intros pre p r post H; split_cases H; simplify_eq
           |intros d e' w' H; elem_cases; simplify_eq]. }
  destruct (h _ (PickleLoad cfile) w2) as [[e|[cdata|ty]] w3]; simpl.
  1,3: split; [intros pre p r post H; split_cases H; simplify_eq
              |intros d e' w' H; elem_cases; simplify_eq].
  pose proof (probe_never_removes cdata w3) as Hclean.
  pose proof (probe_event_in cdata w3) as Hprobe.
  unfold trace_of in Hclean.
  assert (Forall (fun ev => is_remove ev = false)
            (map fst (exec h (probe cdata) w3).1.1)) as Hclean'.
  { eapply Forall_impl; [exact Hclean|]. by intros []. }
  destruct (exec h (probe cdata) w3) as [[tp w4] [jobs|e]]; simpl in *.
  2:{ split.
      - intros pre p r post H. split_cases H; simplify_eq.
        rewrite <- (app_nil_r (map fst tp)) in H.
        eapply (cut_after_prefix is_removal) in H as (pre' & -> & H);
          [|done..]. split_cases H; simplify_eq.
      - intros d e' w' H. elem_cases; simplify_eq.
        apply Hprobe in H. done. }
  unfold act_on_count.
  destruct jobs as [[|n]|]; simpl;
    [destruct (_dryrun self); simpl;
     [|destruct (h _ (Rmtree (dict_get cdata "tmpdir")) w4) as [[e|] w5];
       simpl;
       [|destruct (h _ (Remove cfile) w5) as [[e|] w6]; simpl]]| |].
  all: split;
    [intros pre p r post H; split_cases H; simplify_eq;
     rewrite map_app in H;
     (eapply (cut_after_prefix is_removal) in H as (pre' & -> & H);
      [|done|done]);
     simpl in H; split_cases H; simplify_eq;
     (split; [done|eexists; elem_find])
    |intros d e' w' H; elem_cases; simplify_eq;
     try (by apply Hprobe in H);
     (split; [|done]);
     repeat (apply Forall_cons; split; [done|]);
     rewrite map_app; (apply Forall_app; split; [done|]);
     simpl; repeat constructor].
Qed.

(** C2.  Past the age guard, [rmtree] or [os.remove] is called only when
    the probe, run on the loaded record, returned the count 0 and the
    cleaner is not in dry-run mode.  When the probe returned a positive
    count or the unknown signal nothing is removed, and the unknown
    signal is logged at error level. *)
Theorem C2_removal_only_on_zero_count
    (self : LocalSubmitCleaner) (cfile : string) (w : W) :
  let res := exec h (step self cfile) w in
  (Exists (fun ev => is_removal ev = true) (trace_of res) →
   _dryrun self = false
   ∧ ∃ cdata wp,
       (EvLoad cfile (inr (PDict cdata)), wp) ∈ history_of res
       ∧ outcome_of (exec h (probe cdata) wp) = Returned (Some 0%nat))
  ∧ (∀ cdata wp jobs,
       (EvLoad cfile (inr (PDict cdata)), wp) ∈ history_of res →
       outcome_of (exec h (probe cdata) wp) = Returned jobs →
       jobs ≠ Some 0%nat →
       Forall (fun ev => is_removal ev = false) (trace_of res)
       ∧ (jobs = None → Logged Error msg_unknown ∈ trace_of res)).
Proof.
  intros res. subst res. rewrite exec_step.
unfold trace_of, outcome_of, history_of.
  destruct (h _ (Stat cfile) w) as [[e|mtime] w1]; simpl.
  { split; [intros H; exists_cases H
           |intros cdata wp jobs H; elem_cases; simplify_eq]. }
  destruct (h _ Time w1) as [now w2]; simpl.
  destruct (Qltb _ _); simpl.
  { split; [intros H; exists_cases H
           |intros cdata wp jobs H; elem_cases; simplify_eq]. }
  destruct (h _ (PickleLoad cfile) w2) as [[e|[cdata|ty]] w3]; simpl.
  1,3: split; [intros H; exists_cases H
              |intros cdata' wp jobs H; elem_cases; simplify_eq].
  pose proof (probe_never_removes cdata w3) as Hclean.
  pose proof (probe_event_in cdata w3) as Hprobe.
  unfold trace_of in Hclean.
  destruct (exec h (probe cdata) w3) as [[tp w4] [jobs|e]] eqn:Hp;
    simpl in *.
  2:{ split.
      - intros H. exists_cases H.
        by apply Forall_false_Exists_true in Hclean.
      - intros cdata' wp jobs H Hjobs. elem_cases; simplify_eq.
        + rewrite Hp in Hjobs. done.
        + by apply Hprobe in H. }
  unfold act_on_count.
  destruct jobs as [[|n]|]; simpl;
    [destruct (_dryrun self); simpl;
     [|destruct (h _ (Rmtree (dict_get cdata "tmpdir")) w4) as [[e|] w5];
       simpl;
       [|destruct (h _ (Remove cfile) w5) as [[e|] w6]; simpl]]| |].
  all: split;
    [intros H; exists_cases H;
     try (by apply Forall_false_Exists_true in Hclean);
     (split; [done|exists cdata, w3; split; [elem_find|by rewrite Hp]])
    |intros cdata' wp jobs H Hjobs Hnz; elem_cases; simplify_eq;
     try (by apply Hprobe in H);
     rewrite Hp in Hjobs; simpl in Hjobs; simplify_eq;
     rewrite map_app; simpl;
     (split; [|first [done|intros _; elem_find]]);
     repeat (apply Forall_cons; split; [done|]);
     (apply Forall_app; split; [done|]);
     repeat constructor].
Qed.

(** C6.  A dry-run cleaner never calls [rmtree] or [os.remove]; and
    wherever the same cleaner without the dry-run flag would have gone
    on to remove the work directory, the dry run logs what it would have
    removed, for the work directory and for the record file. *)
Theorem C6_dry_run_only_logs
    (self : LocalSubmitCleaner) (cfile : string) (w : W) :
  _dryrun self = true →
  let dry := exec h (step self cfile) w in
  let wet :=
    exec h (step {| _dryrun := false; _sleeptime := _sleeptime self |}
              cfile) w in
  Forall (fun ev => is_removal ev = false) (trace_of dry)
  ∧ (∀ d r,
       EvRmtree d r ∈ trace_of wet →
       Logged Debug (msg_dry_run_path d) ∈ trace_of dry
       ∧ Logged Debug (msg_dry_run_file cfile) ∈ trace_of dry).
Proof.
  intros Hdry dry wet. subst dry wet. rewrite !exec_step. unfold trace_of.
  destruct (h _ (Stat cfile) w) as [[e|mtime] w1]; simpl.
  { split; [repeat constructor|intros d r H; elem_cases; simplify_eq]. }
  destruct (h _ Time w1) as [now w2]; simpl.
  destruct (Qltb _ _); simpl.
  { split; [repeat constructor|intros d r H; elem_cases; simplify_eq]. }
  destruct (h _ (PickleLoad cfile) w2) as [[e|[cdata|ty]] w3]; simpl.
  1,3: split; [repeat constructor|intros d r H; elem_cases; simplify_eq].
  pose proof (probe_never_removes cdata w3) as Hclean.
  unfold trace_of in Hclean.
  assert (∀ d r, EvRmtree d r ∉ map fst (exec h (probe cdata) w3).1.1)
    as Hprobe.
  { intros d r Hin. rewrite Forall_forall in Hclean.
    by specialize (Hclean _ Hin). }
  destruct (exec h (probe cdata) w3) as [[tp w4] [jobs|e]]; simpl in *.
  2:{ split.
      - by repeat (apply Forall_cons; split; [done|]).
      - intros d r H; elem_cases; simplify_eq. by apply Hprobe in H. }
  unfold act_on_count. rewrite Hdry.
  destruct jobs as [[|n]|]; simpl;
    [destruct (h _ (Rmtree (dict_get cdata "tmpdir")) w4) as [[e|] w5];
     simpl;
     [|destruct (h _ (Remove cfile) w5) as [[e|] w6]; simpl]| |].
  all: rewrite !map_app; simpl; split;
    [repeat (apply Forall_cons; split; [done|]);
     (apply Forall_app; split; [done|]); repeat constructor
    |intros d r H; elem_cases; simplify_eq;
     try (by apply Hprobe in H); split; elem_find].
Qed.

(** *** The per-record boundary, the pass and the loop *)

Lemma step_events (self : LocalSubmitCleaner) (cfile : string) (w : W) :
  Forall (fun ev => is_step_event ev = true)
    (trace_of (exec h (step self cfile) w)).
Proof.
  rewrite exec_step. unfold trace_of.
  destruct (h _ (Stat cfile) w) as [[e|mtime] w1]; simpl;
    [repeat constructor|].
  destruct (h _ Time w1) as [now w2]; simpl.
  destruct (Qltb _ _); simpl; [repeat constructor|].
  destruct (h _ (PickleLoad cfile) w2) as [[e|[cdata|ty]] w3]; simpl;
    [repeat constructor| |repeat constructor].
  assert (Forall (fun ev => is_step_event ev = true)
            (map fst (exec h (probe cdata) w3).1.1)) as Hprobe.
  { eapply Forall_impl; [apply probe_events|]. by intros []. }
  destruct (exec h (probe cdata) w3) as [[tp w4] [jobs|e]]; simpl in *;
    [|by repeat (apply Forall_cons; split; [done|])].
  unfold act_on_count.
  destruct jobs as [[|n]|]; simpl;
    [destruct (_dryrun self); simpl;
     [|destruct (h _ (Rmtree (dict_get cdata "tmpdir")) w4) as [[e|] w5];
       simpl;
       [|destruct (h _ (Remove cfile) w5) as [[e|] w6]; simpl]]| |].
  all: rewrite map_app; simpl;
    repeat (apply Forall_cons; split; [done|]);
    (apply Forall_app; split; [done|]); repeat constructor.
Qed.

(** A step stats its record file first, and nothing else. *)
Lemma step_stats (self : LocalSubmitCleaner) (cfile : string) (w : W) :
  stat_paths (trace_of (exec h (step self cfile) w)) = [cfile].
Proof.
  rewrite exec_step. unfold trace_of.
  destruct (h _ (Stat cfile) w) as [[e|mtime] w1]; simpl; [done|].
  destruct (h _ Time w1) as [now w2]; simpl.
  destruct (Qltb _ _); simpl; [done|].
  destruct (h _ (PickleLoad cfile) w2) as [[e|[cdata|ty]] w3]; simpl;
    [done| |done].
  assert (stat_paths (map fst (exec h (probe cdata) w3).1.1) = [])
    as Hprobe.
  { pose proof (probe_events cdata w3) as Hall. unfold trace_of in Hall.
    induction Hall as [|ev l Hev _ IH]; [done|].
    destruct ev; simpl in *; try done. }
  destruct (exec h (probe cdata) w3) as [[tp w4] [jobs|e]]; simpl in *;
    [|by rewrite Hprobe].
  unfold act_on_count.
  destruct jobs as [[|n]|]; simpl;
    [destruct (_dryrun self); simpl;
     [|destruct (h _ (Rmtree (dict_get cdata "tmpdir")) w4) as [[e|] w5];
       simpl;
       [|destruct (h _ (Remove cfile) w5) as [[e|] w6]; simpl]]| |].
  all: rewrite map_app, stat_paths_app, Hprobe; done.
Qed.

Lemma exec_guarded_step (self : LocalSubmitCleaner) (c : string) (w : W) :
  exec h (guarded_step ctime re_other self c) w =
    match exec h (step self c) w with
    | (t, w1, Returned _) => (t, w1, Returned tt)
    | (t, w1, Raised e) =>
        (t ++ [(Logged Error (msg_unhandled e), w1)], w1, Returned tt)
    end.
Proof.
  unfold guarded_step. rewrite exec_try_except.
  by destruct (exec h (step self c) w) as [[t w1] [[]|e]].
Qed.

Lemma exec_for_each_cons (body : string → prog unit)
    (c : string) (cs : list string) (w : W) :
  exec h (for_each (c :: cs) body) w =
    match exec h (body c) w with
    | (t, w1, Returned _) =>
        let '(t', w2, r) := exec h (for_each cs body) w1 in
        (t ++ t', w2, r)
    | (t, w1, Raised e) => (t, w1, Raised e)
    end.
Proof. simpl. by rewrite exec_bind. Qed.

Lemma for_each_guarded (self : LocalSubmitCleaner)
    (cs : list string) (w : W) :
  let res := exec h (for_each cs (guarded_step ctime re_other self)) w in
  outcome_of res = Returned tt
  ∧ stat_paths (trace_of res) = cs
  ∧ Forall (fun ev => is_step_event ev = true) (trace_of res).
Proof.
  revert w. induction cs as [|c cs IH]; intros w.
  { simpl. repeat split; constructor. }
  cbv zeta. rewrite exec_for_each_cons, exec_guarded_step.
  pose proof (step_stats self c w) as Hstat.
  pose proof (step_events self c w) as Hev.
  destruct (exec h (step self c) w) as [[t w1] r].
  destruct (IH w1) as (Hret & Hpaths & Hall).
  unfold trace_of, outcome_of in *. simpl in Hstat, Hev.
  destruct r as [[]|e];
    destruct (exec h (for_each cs _) w1) as [[t' w2] r'];
    simpl in *; subst r';
    rewrite ?map_app, ?stat_paths_app, Hstat, Hpaths; simpl;
    (split; [done|split; [done|]]);
    rewrite ?Forall_app; repeat split; try done; repeat constructor.
Qed.

Lemma exec_pass (self : LocalSubmitCleaner) (w : W) :
  exec h (pass ctime re_other self) w =
    let '(_, w1) := h _ (Wait (_sleeptime self)) w in
    let '(v, w2) :=
      h _ (GetCondorConfigVal "CONDOR_AGENT_SUBMIT_DIR" (dq +:+ dq)) w1 in
    let head :=
      [(Logged Info (msg_sleeping (_sleeptime self)), w);
       (EvWait (_sleeptime self), w1);
       (EvConfig "CONDOR_AGENT_SUBMIT_DIR" (dq +:+ dq) v, w2)] in
    let submitDir := remove_char dquote_char v in
    if String.eqb submitDir "" then
      (head ++ [(Logged Error msg_no_submit_dir, w2)], w2, Returned tt)
    else
      let '(ms, w3) := h _ (Glob (path_join submitDir "*.cluster")) w2 in
      let '(t, w4, r) :=
        exec h (for_each (map (path_join submitDir) ms)
                  (guarded_step ctime re_other self)) w3 in
      (head ++ [(Logged Info (msg_scanning submitDir), w2);
                (EvGlob (path_join submitDir "*.cluster") ms, w3)] ++ t,
       w4, r).
Proof.
  unfold pass. simpl.
  destruct (h _ (Wait (_sleeptime self)) w) as [[] w1]; simpl.
  destruct (h _ (GetCondorConfigVal _ _) w1) as [v w2]; simpl.
  destruct (String.eqb _ _); simpl; [done|].
  destruct (h _ (Glob _) w2) as [ms w3]; simpl.
  by destruct (exec h (for_each _ _) w3) as [[t w4] r].
Qed.

(** A pass opens with the sleep; what follows holds neither a check of
    the stop flag nor another sleep; and the pass returns. *)
Lemma pass_shape (self : LocalSubmitCleaner) (w : W) :
  ∃ w1 rest w',
    exec h (pass ctime re_other self) w =
      ((Logged Info (msg_sleeping (_sleeptime self)), w)
         :: (EvWait (_sleeptime self), w1) :: rest, w', Returned tt)
    ∧ Forall (fun ev => is_isset ev = false ∧ is_wait ev = false)
        (map fst rest).
Proof.
  rewrite exec_pass.
  destruct (h _ (Wait (_sleeptime self)) w) as [[] w1].
  destruct (h _ (GetCondorConfigVal _ _) w1) as [v w2]. cbv zeta.
  destruct (String.eqb _ _).
  { eexists _, _, _. split; [reflexivity|]. by repeat constructor. }
  destruct (h _ (Glob _) w2) as [ms w3].
  destruct (for_each_guarded self
              (map (path_join (remove_char dquote_char v)) ms) w3)
    as (Hret & _ & Hall).
  unfold outcome_of, trace_of in *.
  destruct (exec h (for_each _ _) w3) as [[t w4] r]. simpl in *. subst r.
  eexists _, _, _. split; [reflexivity|]. simpl.
  repeat (apply Forall_cons; split; [done|]).
  eapply Forall_impl; [exact Hall|]. by intros [].
Qed.

Lemma exec_loop_S (self : LocalSubmitCleaner) (n : nat) (w : W) :
  exec h (loop ctime re_other self (S n)) w =
    let '(stop, w1) := h _ IsSet w in
    if stop : bool then ([(EvIsSet true, w1)], w1, Returned Stopped)
    else
      let '(t, w2, _) := exec h (pass ctime re_other self) w1 in
      let '(t', w3, r) := exec h (loop ctime re_other self n) w2 in
      ((EvIsSet false, w1) :: t ++ t', w3, r).
Proof.
  cbn -[pass]. destruct (h _ IsSet w) as [[] w1]; cbn -[pass]; [done|].
  change (prog_bind ?f ?p) with (p ≫= f). rewrite exec_bind.
  destruct (pass_shape self w1) as (w1' & rest & w2 & -> & _).
  by destruct (exec h (loop _ _ _ n) w2) as [[t' w3] r].
Qed.

(** C8.  When the configured submission root, with its quotes stripped,
    is empty (the default of an unset value is a pair of quotes), the
    pass is: the sleep, the lookup, one error-level log record; nothing
    is scanned or processed, the pass returns, and the loop goes on with
    its next turn. *)
Theorem C8_missing_submit_dir_skips_the_pass
    (self : LocalSubmitCleaner) (n : nat) (w0 w w1 w2 : W) (v : string) :
  h _ IsSet w0 = (false, w) →
  h _ (Wait (_sleeptime self)) w = (tt, w1) →
  h _ (GetCondorConfigVal "CONDOR_AGENT_SUBMIT_DIR" (dq +:+ dq)) w1
    = (v, w2) →
  remove_char dquote_char v = "" →
  let skipped :=
    [(Logged Info (msg_sleeping (_sleeptime self)), w);
     (EvWait (_sleeptime self), w1);
     (EvConfig "CONDOR_AGENT_SUBMIT_DIR" (dq +:+ dq) v, w2);
     (Logged Error msg_no_submit_dir, w2)] in
  exec h (pass ctime re_other self) w = (skipped, w2, Returned tt)
  ∧ exec h (loop ctime re_other self (S n)) w0 =
      (let '(t, w', r) := exec h (loop ctime re_other self n) w2 in
       ((EvIsSet false, w) :: skipped ++ t, w', r)).
Proof.
  intros Hset Hwait Hconf Hempty skipped.
  assert (exec h (pass ctime re_other self) w = (skipped, w2, Returned tt))
    as Hpass.
  { rewrite exec_pass, Hwait, Hconf. cbv zeta. by rewrite Hempty. }
  split; [done|]. by rewrite exec_loop_S, Hset, Hpass.
Qed.

Lemma loop_outcome (self : LocalSubmitCleaner) (fuel : nat) (w : W) :
  let res := exec h (loop ctime re_other self fuel) w in
  outcome_of res = Returned Stopped
  ∨ (outcome_of res = Returned StillLooping
     ∧ sleeps (trace_of res) = fuel).
Proof.
  revert w. induction fuel as [|n IH]; intros w; cbv zeta.
  { right. done. }
  rewrite exec_loop_S. destruct (h _ IsSet w) as [[] w1]; [by left|].
  destruct (pass_shape self w1) as (w1' & rest & w2 & -> & Hrest).
  specialize (IH w2). cbv zeta in IH. unfold outcome_of, trace_of in *.
  destruct (exec h (loop _ _ _ n) w2) as [[t' w3] r]. simpl in *.
  destruct IH as [->|[-> Hn]]; [by left|right]. split; [done|].
  rewrite map_app.
  change (sleeps ([EvIsSet false; Logged Info (msg_sleeping (_sleeptime self));
                   EvWait (_sleeptime self)] ++ map fst rest ++ map fst t')
          = S n).
  rewrite !sleeps_app, Hn, (sleeps_none _ Hrest). done.
Qed.

(** C7.  An exception raised while a record is processed stops at the
    [try] around the step: it is logged with its message at error level
    and the guarded step returns.  Hence a pass over any list of records
    returns and has processed every one of them, in order; and the loop
    never ends by an exception: an observation of [fuel] turns ends on a
    raised stop flag or with the loop entering its turn number [fuel]. *)
Theorem C7_exceptions_stop_at_the_record_boundary
    (self : LocalSubmitCleaner) :
  (∀ c w t w1 e,
      exec h (step self c) w = (t, w1, Raised e) →
      exec h (guarded_step ctime re_other self c) w =
        (t ++ [(Logged Error (msg_unhandled e), w1)], w1, Returned tt))
  ∧ (∀ cs w,
       let res :=
         exec h (for_each cs (guarded_step ctime re_other self)) w in
       outcome_of res = Returned tt ∧ stat_paths (trace_of res) = cs)
  ∧ (∀ fuel w,
       let res := exec h (run ctime re_other self fuel) w in
       outcome_of res = Returned Stopped
       ∨ (outcome_of res = Returned StillLooping
          ∧ sleeps (trace_of res) = fuel)).
Proof.
  split; [|split].
  - intros c w t w1 e Hstep. by rewrite exec_guarded_step, Hstep.
  - intros cs w. destruct (for_each_guarded self cs w) as (? & ? & _).
    by split.
  - intros fuel w. cbv zeta. unfold run. cbn -[loop].
    pose proof (loop_outcome self fuel w) as Hloop. cbv zeta in Hloop.
    unfold outcome_of, trace_of in *.
    by destruct (exec h (loop _ _ _ fuel) w) as [[t w1] r].
Qed.

Lemma loop_sleeps_first (self : LocalSubmitCleaner) (fuel : nat) (w : W)
    (pre post : list event) (ev : event) :
  trace_of (exec h (loop ctime re_other self fuel) w) = pre ++ ev :: post →
  touches_records ev = true →
  ∃ pre1 pre2,
    pre = pre1 ++ EvWait (_sleeptime self) :: pre2
    ∧ Forall (fun e => is_isset e = false) pre2.
Proof.
  revert w pre. induction fuel as [|n IH]; intros w pre H Hev.
  { by destruct pre. }
  rewrite exec_loop_S in H. unfold trace_of in *.
  destruct (h _ IsSet w) as [[] w1].
  { simpl in H. split_cases H; simplify_eq. }
  destruct (pass_shape self w1) as (w1' & rest & w2 & Hpass & Hrest).
  rewrite Hpass in H. specialize (IH w2).
  destruct (exec h (loop _ _ _ n) w2) as [[t' w3] r]. simpl in *.
  split_cases H; simplify_eq; try (simpl in Hev; discriminate).
  rewrite map_app in H.
  apply app_eq_inv in H as [(k & Hpre & Hk)|(k & -> & Hk)].
  - destruct k as [|ev' k]; simpl in Hk.
    + destruct (IH [] (eq_sym Hk) Hev) as (pre1 & pre2 & Hnil & _).
      by destruct pre1.
    + simplify_eq. rewrite Hpre, Forall_app in Hrest.
      destruct Hrest as (Hx & _).
      eexists [_; _], _. split; [reflexivity|].
      eapply Forall_impl; [exact Hx|]. by intros ? [].
  - destruct (IH k Hk Hev) as (pre1 & pre2 & -> & Hpre2).
    eexists (_ :: _ :: _ :: map fst rest ++ pre1), pre2.
    split; [|done]. simpl. by rewrite <- app_assoc.
Qed.

(** C9.  On every turn of the loop, the first included, the sleep comes
    before the scan: in a run of [run], any event of the scan or of the
    processing of a record is preceded by a [wait] for the configured
    interval, with no check of the stop flag between the two, so that
    the wait belongs to the same turn. *)
Theorem C9_sleep_comes_before_the_scan
    (self : LocalSubmitCleaner) (fuel : nat) (w : W)
    (pre post : list event) (ev : event) :
  trace_of (exec h (run ctime re_other self fuel) w) = pre ++ ev :: post →
  touches_records ev = true →
  ∃ pre1 pre2,
    pre = pre1 ++ EvWait (_sleeptime self) :: pre2
    ∧ Forall (fun e => is_isset e = false) pre2.
Proof.
  intros H Hev. unfold run in H. cbn -[loop] in H.
  pose proof (loop_sleeps_first self fuel w) as Hloop.
  unfold trace_of in *.
  destruct (exec h (loop _ _ _ fuel) w) as [[t w1] r]. simpl in *.
  split_cases H; simplify_eq; try (simpl in Hev; discriminate).
  destruct (Hloop _ _ _ H Hev) as (pre1 & pre2 & -> & Hpre2).
  by exists (Logged Info msg_startup :: pre1), pre2.
Qed.

(** C10.  For every root and pattern the locator yields, for
    each match of the glob of root joined with the pattern, root joined
    onto that match again.  The yielded path is the match itself exactly
    when the match is absolute or the root is the empty string.  So for
    a match that starts with a non-empty root: it is yielded unchanged
    exactly when the root is absolute, and for a relative root the
    yielded path is root, a separator unless root ends in one, and the
    match, which holds the root twice and differs from the match. *)
Theorem C10_locate_joins_the_root_again (pattern root : string) (w : W) :
  let '(ms, w1) := h _ (Glob (path_join root pattern)) w in
  exec h (_locate pattern root) w =
    ([(EvGlob (path_join root pattern) ms, w1)], w1,
     Returned (map (path_join root) ms))
  ∧ ∀ m, m ∈ ms →
      (path_join root m = m ↔ is_absolute m = true ∨ root = "")
      ∧ (starts_with root m = true → root ≠ "" →
         (path_join root m = m ↔ is_absolute root = true)
         ∧ (is_absolute root = false →
            ∃ rest,
              m = root +:+ rest
              ∧ path_join root m =
                  root +:+ (if ends_with_slash root then "" else "/")
                    +:+ root +:+ rest
              ∧ path_join root m ≠ m)).
Proof.
  unfold _locate. simpl.
  destruct (h _ (Glob (path_join root pattern)) w) as [ms w1]. simpl.
  split; [done|]. intros m _. split; [apply path_join_fixes|].
  intros Hpre Hne. pose proof (absolute_of_prefix _ _ Hpre Hne) as Habs.
  split.
  { rewrite path_join_fixes, Habs. split; [by intros [|]|by left]. }
  intros Hrel. destruct (starts_with_split _ _ Hpre) as [rest Hm].
  exists rest. split; [done|]. split.
  - unfold path_join. unfold is_absolute in *. rewrite Habs, Hrel.
    apply String.eqb_neq in Hne. rewrite Hne. simpl. subst m.
    by destruct (ends_with_slash root).
  - rewrite path_join_fixes, Habs, Hrel. by intros [|].
Qed.

(** C5.  The probe does not always return the number of output lines
    that begin with the cluster id: on the two lines [42] and [ 42] the
    match on the first line swallows the line feed and the blank that
    opens the second, so the second line is not counted. *)
Theorem C5_probe_misses_an_indented_line
    (cdata : gmap string pyval) (w w1 : W) (line : string) :
  dict_get cdata "clusterid" = PyStr "42" →
  py_join (condor_q_cmd cdata) = inr line →
  h _ (RunCommand2 line) w
    = (inr (0, "42" +:+ nl +:+ " 42" +:+ nl, ""), w1) →
  outcome_of (exec h (probe cdata) w) = Returned (Some 1%nat)
  ∧ spec_line_count "42" ("42" +:+ nl +:+ " 42" +:+ nl) = 2%nat.
Proof.
  intros Hid Hline Hrun. split; [|reflexivity].
  unfold _condorJobsInQueue, outcome_of. rewrite Hline. simpl.
  rewrite Hrun. simpl. by rewrite Hid.
Qed.

End Properties.

(** ** Further properties of the step, the probe and the loop *)

Section Further.
Context {W : Type} (h : handler W).
Variable ctime : Z → string.
Variable re_other : string → string → exn + nat.

Local Abbreviation probe := (_condorJobsInQueue re_other).
Local Abbreviation step := (_safeRemoveClusterFiles ctime re_other).

Lemma Qltb_ge (x y : Q) : Qltb x y = false ↔ (y <= x)%Q.
Proof.
  destruct (Qltb x y) eqn:Hlt.
  - apply Qltb_lt in Hlt. split; [done|]. intros Hle.
    by apply Qle_not_lt in Hle.
  - split; [|done]. intros _. apply Qnot_lt_le. intros Hxy.
    apply Qltb_lt in Hxy. congruence.
Qed.

(** X1.  The age guard is sharp: once the record file has been statted,
    the step goes on to load it exactly when [now - mtime] is at least 300
    seconds; a file exactly 300 seconds old is loaded. *)
Theorem X1_loaded_iff_old_enough (self : LocalSubmitCleaner)
    (cfile : string) (w w1 w2 : W) (mtime : Z) (now : Q) :
  h _ (Stat cfile) w = (inr mtime, w1) →
  h _ Time w1 = (now, w2) →
  (∃ r, EvLoad cfile r ∈ trace_of (exec h (step self cfile) w))
  ↔ (inject_Z 300 <= now - inject_Z mtime)%Q.
Proof.
  intros Hstat Htime. rewrite exec_step, Hstat, Htime. cbv zeta.
  unfold trace_of.
  destruct (Qltb _ _) eqn:Hage.
  { apply Qltb_lt in Hage. split.
    - intros [r Hin]. simpl in Hin. elem_cases; simplify_eq.
    - intros Hle. by apply Qle_not_lt in Hle. }
  apply Qltb_ge in Hage. split; [done|]. intros _.
  destruct (h _ (PickleLoad cfile) w2) as [r w3]. exists r.
  destruct r as [e|[cdata|ty]]; simpl; [elem_find| |elem_find].
  destruct (exec h (probe cdata) w3) as [[tp w4] [jobs|e]]; simpl;
    [|elem_find].
  destruct (exec h (act_on_count self cfile cdata jobs) w4) as [[ta w5] r].
  simpl. elem_find.
Qed.

(** X2.  An eligible record is removed in order: old enough, loaded as a
    dictionary, counted at 0 by the probe, and with no dry run, the step
    calls [rmtree] on the record's [tmpdir]; when that succeeds it calls
    [os.remove] on the record file; when that succeeds too it logs both
    removals at info level and returns. *)
Theorem X2_eligible_record_is_removed (self : LocalSubmitCleaner)
    (cfile : string) (w w1 w2 w3 w4 w5 w6 : W) (mtime : Z) (now : Q)
    (cdata : gmap string pyval) (tp : list (event * W)) :
  _dryrun self = false →
  h _ (Stat cfile) w = (inr mtime, w1) →
  h _ Time w1 = (now, w2) →
  (inject_Z 300 <= now - inject_Z mtime)%Q →
  h _ (PickleLoad cfile) w2 = (inr (PDict cdata), w3) →
  exec h (probe cdata) w3 = (tp, w4, Returned (Some 0%nat)) →
  h _ (Rmtree (dict_get cdata "tmpdir")) w4 = (None, w5) →
  h _ (Remove cfile) w5 = (None, w6) →
  exec h (step self cfile) w =
    ([(EvStat cfile (inr mtime), w1); (EvTime now, w2);
      (EvLoad cfile (inr (PDict cdata)), w3);
      (Logged Info (msg_checking cdata), w3)]
     ++ tp
     ++ [(Logged Info (msg_cleanup 0 (dict_get cdata "tmpdir")), w4);
         (EvRmtree (dict_get cdata "tmpdir") None, w5);
         (Logged Info (msg_rmtree_done (dict_get cdata "tmpdir")), w5);
         (EvRemove cfile None, w6);
         (Logged Info (msg_remove_done cfile), w6)],
     w6, Returned tt).
Proof.
  intros Hdry Hstat Htime Hage Hload Hprobe Hrmtree Hremove.
  apply Qltb_ge in Hage.
  rewrite exec_step, Hstat, Htime. cbv zeta. rewrite Hage, Hload, Hprobe.
  unfold act_on_count. rewrite Hdry. simpl.
  rewrite Hrmtree. simpl. by rewrite Hremove.
Qed.

(** X3.  A failed removal never propagates: a failure of [rmtree] and a
    failure of [os.remove] are each logged at error level with the target
    and the message of the exception, and a step that has called either
    returns normally. *)
Theorem X3_removal_failures_are_logged_and_swallowed
    (self : LocalSubmitCleaner) (cfile : string) (w : W) :
  let res := exec h (step self cfile) w in
  (∀ d e, EvRmtree d (Some e) ∈ trace_of res →
          Logged Error (msg_rmtree_failed d e) ∈ trace_of res)
  ∧ (∀ p e, EvRemove p (Some e) ∈ trace_of res →
            Logged Error (msg_remove_failed p e) ∈ trace_of res)
  ∧ (Exists (fun ev => is_removal ev = true) (trace_of res) →
     outcome_of res = Returned tt).
Proof.
  intros res. subst res. rewrite exec_step. unfold trace_of, outcome_of.
  destruct (h _ (Stat cfile) w) as [[e|mtime] w1]; simpl.
  { (split; [|split]); [intros ?? H; elem_cases; simplify_eq..
                        |intros H; exists_cases H]. }
  destruct (h _ Time w1) as [now w2]; simpl.
  destruct (Qltb _ _); simpl.
  { (split; [|split]); [intros ?? H; elem_cases; simplify_eq..
                        |intros H; exists_cases H]. }
  destruct (h _ (PickleLoad cfile) w2) as [[e|[cdata|ty]] w3]; simpl.
  1,3: (split; [|split]); [intros ?? H; elem_cases; simplify_eq..
                     |intros H; exists_cases H].
  pose proof (probe_never_removes h re_other cdata w3) as Hclean.
  unfold trace_of in Hclean.
  assert (∀ ev, ev ∈ map fst (exec h (probe cdata) w3).1.1 →
                is_removal ev = false) as Hprobe.
  { by apply Forall_forall. }
  destruct (exec h (probe cdata) w3) as [[tp w4] [jobs|e]]; simpl in *.
  2:{ (split; [|split]);
        [intros ?? H; elem_cases; simplify_eq; by apply Hprobe in H..
        |intros H; exists_cases H;
         by apply Forall_false_Exists_true in Hclean]. }
  unfold act_on_count.
  destruct jobs as [[|n]|]; simpl;
    [destruct (_dryrun self); simpl;
     [|destruct (h _ (Rmtree (dict_get cdata "tmpdir")) w4) as [[e|] w5];
       simpl;
       [|destruct (h _ (Remove cfile) w5) as [[e|] w6]; simpl]]| |].
  all: rewrite map_app; simpl; (split; [|split]);
    [intros ?? H; elem_cases; simplify_eq;
     try (by apply Hprobe in H); elem_find..|done].
Qed.

(** X4.  A step raises only where it has not yet decided anything: the
    exception is the one [os.stat] raised, or the one loading the record
    raised, or the [AttributeError] of a loaded object that is not a
    dictionary, or the one the probe raised; and in each case the step has
    removed nothing. *)
Theorem X4_a_raising_step_has_removed_nothing
    (self : LocalSubmitCleaner) (cfile : string) (w : W) (e : exn) :
  let res := exec h (step self cfile) w in
  outcome_of res = Raised e →
  Forall (fun ev => is_removal ev = false) (trace_of res)
  ∧ (EvStat cfile (inl e) ∈ trace_of res
     ∨ EvLoad cfile (inl e) ∈ trace_of res
     ∨ (∃ ty, EvLoad cfile (inr (POther ty)) ∈ trace_of res
              ∧ exn_class e = "AttributeError")
     ∨ (∃ cdata wp,
          (EvLoad cfile (inr (PDict cdata)), wp) ∈ history_of res
          ∧ outcome_of (exec h (probe cdata) wp) = Raised e)).
Proof.
  intros res. subst res. rewrite exec_step.
  unfold trace_of, outcome_of, history_of.
  destruct (h _ (Stat cfile) w) as [[e0|mtime] w1]; simpl.
  { intros [= ->]. split; [repeat constructor|]. left. elem_find. }
  destruct (h _ Time w1) as [now w2]; simpl.
  destruct (Qltb _ _); simpl; [done|].
  destruct (h _ (PickleLoad cfile) w2) as [[e0|[cdata|ty]] w3]; simpl.
  { intros [= ->]. split; [repeat constructor|]. right. left. elem_find. }
  2:{ intros [= <-]. split; [repeat constructor|]. right. right. left.
      exists ty. split; [elem_find|done]. }
  pose proof (probe_never_removes h re_other cdata w3) as Hclean.
  unfold trace_of in Hclean.
  destruct (exec h (probe cdata) w3) as [[tp w4] [jobs|e0]] eqn:Hp;
    simpl in *.
  2:{ intros [= ->]. split.
      - by repeat (apply Forall_cons; split; [done|]).
      - right. right. right. exists cdata, w3.
        split; [elem_find|by rewrite Hp]. }
  unfold act_on_count.
  destruct jobs as [[|n]|]; simpl;
    [destruct (_dryrun self); simpl;
     [|destruct (h _ (Rmtree (dict_get cdata "tmpdir")) w4) as [[e1|] w5];
       simpl;
       [|destruct (h _ (Remove cfile) w5) as [[e1|] w6]; simpl]]| |].
  all: done.
Qed.

Lemma probe_concerns (cfile : string) (cdata : gmap string pyval) (w : W) :
  Forall (concerns cfile) (trace_of (exec h (probe cdata) w)).
Proof.
  eapply Forall_impl; [apply probe_events|]. by intros [].
Qed.

Lemma no_removal_filters (l : list event) :
  Forall (fun ev => is_removal ev = false) l →
  List.filter is_rmtree l = [] ∧ List.filter is_remove l = [].
Proof.
  induction 1 as [|ev l Hev _ [IH1 IH2]]; [done|].
  simpl. by destruct ev.
Qed.

(** X5.  A step keeps to its own record: the only file it stats, loads or
    removes is the record file it was given, and the only tree it removes
    is the [tmpdir] of the dictionary it loaded from that file; it calls
    [rmtree] at most once and [os.remove] at most once. *)
Theorem X5_a_step_keeps_to_its_record
    (self : LocalSubmitCleaner) (cfile : string) (w : W) :
  let t := trace_of (exec h (step self cfile) w) in
  Forall (concerns cfile) t
  ∧ (∀ d r, EvRmtree d r ∈ t →
            ∃ cdata, EvLoad cfile (inr (PDict cdata)) ∈ t
                     ∧ d = dict_get cdata "tmpdir")
  ∧ (length (List.filter is_rmtree t) ≤ 1)%nat
  ∧ (length (List.filter is_remove t) ≤ 1)%nat.
Proof.
  intros t. subst t. rewrite exec_step. unfold trace_of.
  destruct (h _ (Stat cfile) w) as [[e|mtime] w1]; simpl.
  { split; [by repeat constructor|].
    split; [intros ?? H; elem_cases; simplify_eq|lia]. }
  destruct (h _ Time w1) as [now w2]; simpl.
  destruct (Qltb _ _); simpl.
  { split; [by repeat constructor|].
    split; [intros ?? H; elem_cases; simplify_eq|lia]. }
  destruct (h _ (PickleLoad cfile) w2) as [[e|[cdata|ty]] w3]; simpl.
  1,3: split; [by repeat constructor|];
       (split; [intros ?? H; elem_cases; simplify_eq|lia]).
  pose proof (probe_concerns cfile cdata w3) as Hconc.
  pose proof (probe_never_removes h re_other cdata w3) as Hclean.
  unfold trace_of in Hconc, Hclean.
  assert (∀ ev, ev ∈ map fst (exec h (probe cdata) w3).1.1 →
                is_removal ev = false) as Hprobe.
  { by apply Forall_forall. }
  assert (List.filter is_rmtree (map fst (exec h (probe cdata) w3).1.1) = []
          ∧ List.filter is_remove (map fst (exec h (probe cdata) w3).1.1) = [])
    as [Hno1 Hno2].
  { by apply no_removal_filters. }
  destruct (exec h (probe cdata) w3) as [[tp w4] [jobs|e]]; simpl in *.
  2:{ rewrite Hno1, Hno2. split.
      - by repeat (apply Forall_cons; split; [done|]).
      - split; [|simpl; lia].
        intros ?? H; elem_cases; simplify_eq. by apply Hprobe in H. }
  unfold act_on_count.
  destruct jobs as [[|n]|]; simpl;
    [destruct (_dryrun self); simpl;
     [|destruct (h _ (Rmtree (dict_get cdata "tmpdir")) w4) as [[e|] w5];
       simpl;
       [|destruct (h _ (Remove cfile) w5) as [[e|] w6]; simpl]]| |].
  all: rewrite map_app, !List.filter_app, Hno1, Hno2; simpl; split;
    [repeat (apply Forall_cons; split; [done|]);
     (apply Forall_app; split; [done|]); by repeat constructor
    |split; [|lia];
     intros ?? H; elem_cases; simplify_eq; try (by apply Hprobe in H);
     exists cdata; (split; [elem_find|done])].
Qed.

(** X6.  A dry run is a faithful rehearsal: against the same world it
    makes exactly the reads of the real run, in the same order with the
    same answers: the stat, the clock, the load and the queue command. *)
Theorem X6_dry_run_reads_like_the_real_run
    (self : LocalSubmitCleaner) (cfile : string) (w : W) :
  let dry := {| _dryrun := true; _sleeptime := _sleeptime self |} in
  let wet := {| _dryrun := false; _sleeptime := _sleeptime self |} in
  List.filter is_read_event (trace_of (exec h (step dry cfile) w))
  = List.filter is_read_event (trace_of (exec h (step wet cfile) w)).
Proof.
  intros dry wet. subst dry wet. rewrite !exec_step. unfold trace_of.
  destruct (h _ (Stat cfile) w) as [[e|mtime] w1]; simpl; [done|].
  destruct (h _ Time w1) as [now w2]; simpl.
  destruct (Qltb _ _); simpl; [done|].
  destruct (h _ (PickleLoad cfile) w2) as [[e|[cdata|ty]] w3]; simpl;
    [done| |done].
  destruct (exec h (probe cdata) w3) as [[tp w4] [jobs|e]]; simpl; [|done].
  unfold act_on_count.
  destruct jobs as [[|n]|]; simpl; [|done..].
  destruct (h _ (Rmtree (dict_get cdata "tmpdir")) w4) as [[e|] w5]; simpl;
    [|destruct (h _ (Remove cfile) w5) as [[e|] w6]; simpl].
  all: rewrite !map_app, !List.filter_app; done.
Qed.

Lemma probe_joined (cdata : gmap string pyval) (w : W) (line : string) :
  py_join (condor_q_cmd cdata) = inr line →
  ∃ r w1 rest,
    h _ (RunCommand2 line) w = (r, w1)
    ∧ history_of (exec h (probe cdata) w)
      = (Logged Info (msg_running line), w) :: (EvRun line r, w1) :: rest.
Proof.
  intros Hline. unfold _condorJobsInQueue, history_of. rewrite Hline. simpl.
  destruct (h _ (RunCommand2 line) w) as [[e|[[rc out] err]] w1]; simpl.
  { by eexists _, _, _. }
  destruct (Nat.ltb 0 (String.length err)); simpl; [by eexists _, _, _|].
  destruct (rc =? 0); simpl; [|by eexists _, _, _].
  destruct (count_matches _ _ _); by eexists _, _, _.
Qed.

Lemma probe_not_joined (cdata : gmap string pyval) (w : W) (e : exn) :
  py_join (condor_q_cmd cdata) = inl e →
  exec h (probe cdata) w = ([], w, Raised e).
Proof. intros Hline. unfold _condorJobsInQueue. by rewrite Hline. Qed.

(** X7.  The probe needs string ids.  With a string [clusterid] and a
    [queue] that is absent, [None], empty or zero, it runs [condor_q] on
    the default queue; with a non-empty string [queue] it runs [condor_q]
    with [-name] and that queue; the command line is logged first.  In
    every other case (no [clusterid], or one that is not a string, or a
    non-zero number as queue) joining the arguments raises [TypeError]:
    nothing is logged and no command is run. *)
Theorem X7_probe_needs_string_ids (cdata : gmap string pyval) (w : W) :
  let res := exec h (probe cdata) w in
  let runs line :=
    ∃ r w1 rest,
      h _ (RunCommand2 line) w = (r, w1)
      ∧ history_of res
        = (Logged Info (msg_running line), w) :: (EvRun line r, w1) :: rest in
  match dict_get cdata "clusterid", dict_get cdata "queue" with
  | PyStr cid, PyStr q =>
      runs (probe_line (if String.eqb q "" then None else Some q) cid)
  | PyStr cid, PyNone | PyStr cid, PyInt 0 => runs (probe_line None cid)
  | _, _ => ∃ e, res = ([], w, Raised e) ∧ exn_class e = "TypeError"
  end.
Proof.
  intros res runs. subst res runs. cbv beta.
  destruct (dict_get cdata "clusterid") as [|cid|z] eqn:Hcid;
    destruct (dict_get cdata "queue") as [|q|[|z'|z']] eqn:Hq.
  all: try destruct (String.eqb q "") eqn:Hempty.
  all: first
    [apply probe_joined; unfold condor_q_cmd; rewrite Hcid, Hq; simpl;
     rewrite ?Hempty; reflexivity
    |eexists; split; [|shelve];
     apply probe_not_joined; unfold condor_q_cmd; rewrite Hcid, Hq; simpl;
     rewrite ?Hempty; reflexivity].
  Unshelve. all: reflexivity.
Qed.

(** X8.  The probe runs its command at most once, and reports what the
    command wrote on its error stream: that text is logged at error level
    exactly when it is not empty. *)
Theorem X8_probe_reports_the_error_stream
    (cdata : gmap string pyval) (w : W)
    (cmd : string) (rc : Z) (out err : string) :
  let t := trace_of (exec h (probe cdata) w) in
  EvRun cmd (inr (rc, out, err)) ∈ t →
  (Logged Error (msg_command_error err) ∈ t ↔ err ≠ "")
  ∧ List.filter is_read_event t = [EvRun cmd (inr (rc, out, err))].
Proof.
  intros t. subst t. unfold _condorJobsInQueue, trace_of.
  destruct (py_join (condor_q_cmd cdata)) as [e|line]; simpl.
  { intros Hin. elem_cases. }
  destruct (h _ (RunCommand2 line) w) as [[e|[[rc' out'] err']] w1]; simpl.
  { intros Hin. elem_cases; simplify_eq. }
  destruct (Nat.ltb 0 (String.length err')) eqn:Herr; simpl.
  { intros Hin. elem_cases; simplify_eq. split; [|done].
    split; [|intros _; elem_find]. intros _ ->. by cbn in Herr. }
  apply ltb_length_empty in Herr as ->.
  destruct (rc' =? 0); simpl; [destruct (count_matches _ _ _); simpl|].
  all: intros Hin; elem_cases; simplify_eq; split; [|done];
    (split; [|done]); intros Hlog; elem_cases; simplify_eq.
Qed.

(** X9.  For a cluster id of ordinary characters (not empty, no white
    space, no character special in a pattern) and a command that ended
    with exit code 0 and an empty error stream, the probe returns 0
    exactly when no line of the output begins, after optional white
    space, with the cluster id. *)
Theorem X9_probe_returns_zero_iff_no_line
    (cdata : gmap string pyval) (w : W) (cid cmd out : string) :
  dict_get cdata "clusterid" = PyStr cid →
  cid ≠ "" →
  Forall (fun c => is_space c = false) (chars cid) →
  existsb is_meta (chars cid) = false →
  EvRun cmd (inr (0, out, "")) ∈ trace_of (exec h (probe cdata) w) →
  outcome_of (exec h (probe cdata) w) = Returned (Some 0%nat)
  ↔ spec_line_count cid out = 0%nat.
Proof.
  intros Hcid Hne Hsolid Hplain.
  rewrite <- (count_zero_iff_no_line re_other cid out Hne Hsolid Hplain).
  unfold _condorJobsInQueue, trace_of, outcome_of.
  destruct (py_join (condor_q_cmd cdata)) as [e|line]; simpl.
  { intros Hin. elem_cases. }
  destruct (h _ (RunCommand2 line) w) as [[e|[[rc' out'] err']] w1]; simpl.
  { intros Hin. elem_cases; simplify_eq. }
  destruct (Nat.ltb 0 (String.length err')) eqn:Herr; simpl.
  { intros Hin. elem_cases; simplify_eq. }
  destruct (rc' =? 0) eqn:Hrc; simpl.
  - rewrite Hcid.
    destruct (count_matches re_other (PyStr cid) out') as [e|n] eqn:Hcount;
      simpl; intros Hin; elem_cases; simplify_eq; rewrite Hcount.
    + done.
    + split; [by intros [= ->]|by intros [= ->]].
  - intros Hin. elem_cases; simplify_eq.
Qed.

(** X14.  For a cluster id of ordinary characters and a command that
    ended with exit code 0 and an empty error stream, the probe returns a
    count, and that count is at most the number of output lines that
    begin, after optional white space, with the cluster id: the probe may
    miss lines but never counts one twice or invents one. *)
Theorem X14_probe_never_overcounts
    (cdata : gmap string pyval) (w : W) (cid cmd out : string) :
  dict_get cdata "clusterid" = PyStr cid →
  cid ≠ "" →
  Forall (fun c => is_space c = false) (chars cid) →
  existsb is_meta (chars cid) = false →
  EvRun cmd (inr (0, out, "")) ∈ trace_of (exec h (probe cdata) w) →
  ∃ n, outcome_of (exec h (probe cdata) w) = Returned (Some n)
       ∧ (n ≤ spec_line_count cid out)%nat.
Proof.
  intros Hcid Hne Hsolid Hplain.
  unfold _condorJobsInQueue, trace_of, outcome_of.
  destruct (py_join (condor_q_cmd cdata)) as [e|line]; simpl.
  { intros Hin. elem_cases. }
  destruct (h _ (RunCommand2 line) w) as [[e|[[rc' out'] err']] w1]; simpl.
  { intros Hin. elem_cases; simplify_eq. }
  destruct (Nat.ltb 0 (String.length err')) eqn:Herr; simpl.
  { intros Hin. elem_cases; simplify_eq. }
  destruct (rc' =? 0) eqn:Hrc; simpl.
  - rewrite Hcid.
    destruct (count_at_most_lines re_other cid out' Hne Hsolid Hplain)
      as (n & -> & Hle).
    simpl. intros Hin. elem_cases; simplify_eq. by exists n.
  - intros Hin. elem_cases; simplify_eq.
Qed.

(** *** The pass and the loop *)

Lemma pass_opening (self : LocalSubmitCleaner) (w : W) :
  ∃ w1 v w2 rest w',
    exec h (pass ctime re_other self) w =
      ((Logged Info (msg_sleeping (_sleeptime self)), w)
         :: (EvWait (_sleeptime self), w1)
         :: (EvConfig "CONDOR_AGENT_SUBMIT_DIR" (dq +:+ dq) v, w2)
         :: rest, w', Returned tt)
    ∧ Forall (fun ev => is_isset ev = false ∧ is_wait ev = false)
        (map fst rest).
Proof.
  rewrite exec_pass.
  destruct (h _ (Wait (_sleeptime self)) w) as [[] w1].
  destruct (h _ (GetCondorConfigVal _ _) w1) as [v w2]. cbv zeta.
  destruct (String.eqb _ _).
  { eexists _, _, _, _, _. split; [reflexivity|]. by repeat constructor. }
  destruct (h _ (Glob _) w2) as [ms w3].
  destruct (for_each_guarded h ctime re_other self
              (map (path_join (remove_char dquote_char v)) ms) w3)
    as (Hret & _ & Hall).
  unfold outcome_of, trace_of in *.
  destruct (exec h (for_each _ _) w3) as [[t w4] r]. simpl in *. subst r.
  eexists _, _, _, _, _. split; [reflexivity|]. simpl.
  repeat (apply Forall_cons; split; [done|]).
  eapply Forall_impl; [exact Hall|]. by intros [].
Qed.

Lemma step_events_no_glob (l : list event) :
  Forall (fun ev => is_step_event ev = true) l → List.filter is_glob l = [].
Proof. induction 1 as [|ev l Hev _ IH]; [done|]. simpl. by destruct ev. Qed.

Lemma pass_scans_root (self : LocalSubmitCleaner) (w w1 w2 w3 : W)
    (v : string) (ms : list string) :
  h _ (Wait (_sleeptime self)) w = (tt, w1) →
  h _ (GetCondorConfigVal "CONDOR_AGENT_SUBMIT_DIR" (dq +:+ dq)) w1
    = (v, w2) →
  remove_char dquote_char v ≠ "" →
  h _ (Glob (path_join (remove_char dquote_char v) "*.cluster")) w2
    = (ms, w3) →
  ∃ t w4,
    exec h (for_each (map (path_join (remove_char dquote_char v)) ms)
              (guarded_step ctime re_other self)) w3 = (t, w4, Returned tt)
    ∧ exec h (pass ctime re_other self) w =
        ([(Logged Info (msg_sleeping (_sleeptime self)), w);
          (EvWait (_sleeptime self), w1);
          (EvConfig "CONDOR_AGENT_SUBMIT_DIR" (dq +:+ dq) v, w2);
          (Logged Info (msg_scanning (remove_char dquote_char v)), w2);
          (EvGlob (path_join (remove_char dquote_char v) "*.cluster") ms, w3)]
         ++ t, w4, Returned tt).
Proof.
  intros Hwait Hconf Hne Hglob.
  rewrite exec_pass, Hwait, Hconf. cbv zeta.
  apply String.eqb_neq in Hne. rewrite Hne, Hglob.
  destruct (for_each_guarded h ctime re_other self
              (map (path_join (remove_char dquote_char v)) ms) w3)
    as (Hret & _ & _).
  unfold outcome_of in Hret.
  destruct (exec h (for_each _ _) w3) as [[t w4] r]. simpl in *. subst r.
  by exists t, w4.
Qed.

(** X10.  With a submission root that is not empty once its quotes are
    stripped, a pass globs once, for [*.cluster] under that root, and then
    processes exactly the paths the locator yields for what the glob
    found: each once, in the order of the glob; and the pass returns. *)
Theorem X10_pass_processes_what_the_glob_found
    (self : LocalSubmitCleaner) (w w1 w2 w3 : W) (v : string)
    (ms : list string) :
  h _ (Wait (_sleeptime self)) w = (tt, w1) →
  h _ (GetCondorConfigVal "CONDOR_AGENT_SUBMIT_DIR" (dq +:+ dq)) w1
    = (v, w2) →
  remove_char dquote_char v ≠ "" →
  h _ (Glob (path_join (remove_char dquote_char v) "*.cluster")) w2
    = (ms, w3) →
  let res := exec h (pass ctime re_other self) w in
  outcome_of res = Returned tt
  ∧ stat_paths (trace_of res)
    = map (path_join (remove_char dquote_char v)) ms
  ∧ List.filter is_glob (trace_of res)
    = [EvGlob (path_join (remove_char dquote_char v) "*.cluster") ms].
Proof.
  intros Hwait Hconf Hne Hglob res. subst res.
  destruct (pass_scans_root self w w1 w2 w3 v ms Hwait Hconf Hne Hglob)
    as (t & w4 & Hrecords & ->).
  destruct (for_each_guarded h ctime re_other self
              (map (path_join (remove_char dquote_char v)) ms) w3)
    as (_ & Hpaths & Hall).
  rewrite Hrecords in Hpaths, Hall.
  unfold outcome_of, trace_of in *. simpl in *.
  split; [done|]. split; [done|]. by rewrite step_events_no_glob.
Qed.

Lemma loop_wakes_into_lookup (self : LocalSubmitCleaner) (fuel : nat)
    (w : W) (pre post : list event) (s : Z) :
  trace_of (exec h (loop ctime re_other self fuel) w)
    = pre ++ EvWait s :: post →
  ∃ v post',
    post = EvConfig "CONDOR_AGENT_SUBMIT_DIR" (dq +:+ dq) v :: post'.
Proof.
  revert w pre. induction fuel as [|n IH]; intros w pre H.
  { by destruct pre. }
  rewrite exec_loop_S in H. unfold trace_of in *.
  destruct (h _ IsSet w) as [[] w1].
  { simpl in H. split_cases H; simplify_eq. }
  destruct (pass_opening self w1) as (w1' & v & w2 & rest & w' & Hpass & Hrest).
  rewrite Hpass in H. specialize (IH w').
  destruct (exec h (loop _ _ _ n) w') as [[t' w3] r]. simpl in *.
  split_cases H; simplify_eq.
  { by eexists _, _. }
  rewrite map_app in H.
  eapply (cut_after_prefix is_wait) in H as (pre' & -> & H); [|
    eapply Forall_impl; [exact Hrest|]; by intros ? []|done].
  by apply (IH pre').
Qed.

(** X11.  Waking from the sleep the cleaner does not look at the stop
    flag: in every run each [wait] is followed at once by the lookup of
    [CONDOR_AGENT_SUBMIT_DIR], so a stop requested during the sleep takes
    effect only after the pass that follows. *)
Theorem X11_waking_goes_straight_to_the_lookup
    (self : LocalSubmitCleaner) (fuel : nat) (w : W)
    (pre post : list event) (s : Z) :
  trace_of (exec h (run ctime re_other self fuel) w)
    = pre ++ EvWait s :: post →
  ∃ v post',
    post = EvConfig "CONDOR_AGENT_SUBMIT_DIR" (dq +:+ dq) v :: post'.
Proof.
  intros H. unfold run in H. cbn -[loop] in H.
  pose proof (loop_wakes_into_lookup self fuel w) as Hloop.
  unfold trace_of in *.
  destruct (exec h (loop _ _ _ fuel) w) as [[t w1] r]. simpl in *.
  split_cases H; simplify_eq. by apply (Hloop _ _ _ H).
Qed.

Lemma loop_stop (self : LocalSubmitCleaner) (fuel : nat) (w : W) :
  let res := exec h (loop ctime re_other self fuel) w in
  (outcome_of res = Returned Stopped →
   ∃ pre, trace_of res = pre ++ [EvIsSet true])
  ∧ (∀ pre post,
       trace_of res = pre ++ EvIsSet true :: post →
       post = [] ∧ outcome_of res = Returned Stopped).
Proof.
  revert w. induction fuel as [|n IH]; intros w; cbv zeta.
  { split; [done|]. intros pre post H. by destruct pre. }
  rewrite exec_loop_S. unfold trace_of, outcome_of in *.
  destruct (h _ IsSet w) as [[] w1].
  { simpl. split; [by exists []|].
    intros pre post H. split_cases H; simplify_eq. done. }
  destruct (pass_opening self w1) as (w1' & v & w2 & rest & w' & -> & Hrest).
  specialize (IH w'). cbv zeta in IH.
  destruct (exec h (loop _ _ _ n) w') as [[t' w3] r]. simpl in *.
  destruct IH as [IH1 IH2]. split.
  - intros Hr. destruct (IH1 Hr) as [pre Hpre].
    exists (EvIsSet false :: Logged Info (msg_sleeping (_sleeptime self))
              :: EvWait (_sleeptime self)
              :: EvConfig "CONDOR_AGENT_SUBMIT_DIR" (dq +:+ dq) v
              :: map fst rest ++ pre).
    rewrite map_app, Hpre. simpl. by rewrite <- app_assoc.
  - intros pre post H. split_cases H; simplify_eq.
    rewrite map_app in H.
    eapply (cut_after_prefix is_isset) in H as (pre' & -> & H); [|
      eapply Forall_impl; [exact Hrest|]; by intros ? []|done].
    by apply (IH2 pre').
Qed.

(** X12.  The loop ends on the stop flag and on nothing else: a run
    returns as stopped exactly when its last event is a check of the flag
    that answered true, and nothing ever follows such a check; in
    particular a flag already set at the first check means no sleep, no
    lookup, no scan. *)
Theorem X12_the_run_ends_on_the_stop_flag
    (self : LocalSubmitCleaner) (fuel : nat) (w : W) :
  let res := exec h (run ctime re_other self fuel) w in
  (outcome_of res = Returned Stopped
   ↔ ∃ pre, trace_of res = pre ++ [EvIsSet true])
  ∧ (∀ pre post, trace_of res = pre ++ EvIsSet true :: post → post = []).
Proof.
  cbv zeta. unfold run. cbn -[loop].
  pose proof (loop_stop self fuel w) as Hloop. cbv zeta in Hloop.
  unfold trace_of, outcome_of in *.
  destruct (exec h (loop _ _ _ fuel) w) as [[t w1] r]. simpl in *.
  destruct Hloop as [H1 H2]. split; [split|].
  - intros Hr. destruct (H1 Hr) as [pre ->].
    by exists (Logged Info msg_startup :: pre).
  - intros [pre H]. split_cases H; simplify_eq. by apply (H2 _ _ H).
  - intros pre post H. split_cases H; simplify_eq. by apply (H2 _ _ H).
Qed.



End Further.

(** ** The scenarios of the specification, run in the small world *)

(** What the probe counts on three outputs: nothing, another cluster, and
    the one line [   42]. *)
Example count_on_empty_output :
  count_matches no_re (PyStr "42") "" = inr 0%nat
  ∧ spec_line_count "42" "" = 0%nat.
Proof. by vm_compute. Qed.

Example count_on_other_cluster :
  count_matches no_re (PyStr "42") ("43" +:+ nl +:+ "142" +:+ nl) = inr 0%nat
  ∧ spec_line_count "42" ("43" +:+ nl +:+ "142" +:+ nl) = 0%nat.
Proof. by vm_compute. Qed.

Example count_on_indented_line :
  count_matches no_re (PyStr "42") "   42" = inr 1%nat
  ∧ spec_line_count "42" "   42" = 1%nat.
Proof. by vm_compute. Qed.

(** Ten minutes old, nothing in the queue: work directory and record file
    are removed, in that order. *)
Example scenario_removed :
  let res := exec small_handler (run no_ctime no_re (cleaner false) 3)
               (world42 (-200) "" "" 0 false) in
  filter (fun ev => is_removal ev = true) (trace_of res)
    = [EvRmtree (PyStr "/tmp/work42") None; EvRemove A_cluster None]
  ∧ files (world_of res) !! A_cluster = None
  ∧ outcome_of res = Returned Stopped.
Proof. vm_compute. done. Qed.

(** One output line [   42]: one job, nothing removed. *)
Example scenario_still_queued :
  let res := exec small_handler (run no_ctime no_re (cleaner false) 3)
               (world42 (-200) "   42" "" 0 false) in
  filter (fun ev => is_removal ev = true) (trace_of res) = []
  ∧ Logged Info (msg_still 1) ∈ trace_of res.
Proof. split; [by vm_compute|]. vm_compute. elem_find. Qed.

(** Exit code 1 with an empty error stream: unknown, nothing removed. *)
Example scenario_exit_code :
  let res := exec small_handler (run no_ctime no_re (cleaner false) 3)
               (world42 (-200) "" "" 1 false) in
  filter (fun ev => is_removal ev = true) (trace_of res) = []
  ∧ Logged Error msg_unknown ∈ trace_of res.
Proof. split; [by vm_compute|]. vm_compute. elem_find. Qed.

(** Exit code 0 with text on the error stream: unknown, whatever the
    output. *)
Example scenario_error_stream :
  let res := exec small_handler (run no_ctime no_re (cleaner false) 3)
               (world42 (-200) "" "condor_q: cannot connect" 0 false) in
  filter (fun ev => is_removal ev = true) (trace_of res) = []
  ∧ Logged Error msg_unknown ∈ trace_of res.
Proof. split; [by vm_compute|]. vm_compute. elem_find. Qed.

(** ** The theorems at concrete inputs *)

(** The work directory cannot be removed: the step ends in the world the
    failed [rmtree] left, and the record file is still there. *)
Lemma C1_witness :
  let w := world42 (-200) "" "" 0 true in
  let res := exec small_handler
               (_safeRemoveClusterFiles no_ctime no_re (cleaner false)
                  A_cluster) w in
  Forall (fun ev => is_remove ev = false) (trace_of res)
  ∧ world_of res = w
  ∧ is_Some (files (world_of res) !! A_cluster).
Proof.
  intros w res.
  destruct (C1_record_file_outlives_failed_work_dir_removal
              small_handler no_ctime no_re (cleaner false) A_cluster w)
    as [_ Hfail].
  destruct (Hfail (PyStr "/tmp/work42")
              (Exn "OSError" "[Errno 16] Device or resource busy") w)
    as [Hnone Hworld].
  { vm_compute. elem_find. }
  split; [exact Hnone|]. split; [exact Hworld|].
  vm_compute. eexists. reflexivity.
Defined.

(** One job still queued: nothing is removed. *)
Lemma C2_witness :
  let w := world42 (-200) "   42" "" 0 false in
  let res := exec small_handler
               (_safeRemoveClusterFiles no_ctime no_re (cleaner false)
                  A_cluster) w in
  Forall (fun ev => is_removal ev = false) (trace_of res).
Proof.
  intros w res.
  destruct (C2_removal_only_on_zero_count
              small_handler no_ctime no_re (cleaner false) A_cluster w)
    as [_ Hlive].
  destruct (Hlive record42 w (Some 1%nat)) as [Hnone _].
  - vm_compute. elem_find.
  - vm_compute. reflexivity.
  - discriminate.
  - exact Hnone.
Defined.

(** A record file written 100 seconds ago. *)
Lemma C3_witness :
  let w := world42 900 "" "" 0 false in
  exec small_handler
    (_safeRemoveClusterFiles no_ctime no_re (cleaner false) A_cluster) w
  = ([(EvStat A_cluster (inr 900), w);
      (EvTime (inject_Z 1000), w);
      (Logged Info (msg_too_young "A.cluster" (no_ctime 900)), w)],
     w, Returned tt).
Proof.
  intros w.
  apply (C3_age_guard small_handler no_ctime no_re (cleaner false)
           A_cluster w w w 900 (inject_Z 1000)).
  - reflexivity.
  - reflexivity.
  - vm_compute. reflexivity.
Defined.

(** Exit code 1, empty error stream. *)
Lemma C4_witness :
  let w := world42 (-200) "" "" 1 false in
  outcome_of (exec small_handler (_condorJobsInQueue no_re record42) w)
    = Returned None
  ↔ ("" ≠ "" ∨ 1 ≠ 0).
Proof.
  intros w.
  eapply (C4_unknown_iff_error_stream_or_exit_code
            small_handler no_re record42 w).
  vm_compute. elem_find.
Defined.

(** The two output lines [42] and [ 42]. *)
Lemma C5_witness :
  let out := "42" +:+ nl +:+ " 42" +:+ nl in
  let w := world42 (-200) out "" 0 false in
  outcome_of (exec small_handler (_condorJobsInQueue no_re record42) w)
    = Returned (Some 1%nat)
  ∧ spec_line_count "42" out = 2%nat.
Proof.
  intros out w.
  eapply (C5_probe_misses_an_indented_line
            small_handler no_re record42 w w).
  - reflexivity.
  - vm_compute. reflexivity.
  - reflexivity.
Defined.

(** The dry run of the scenario in which everything would be removed. *)
Lemma C6_witness :
  let w := world42 (-200) "" "" 0 false in
  let dry := exec small_handler
               (_safeRemoveClusterFiles no_ctime no_re (cleaner true)
                  A_cluster) w in
  _dryrun (cleaner true) = true
  ∧ Forall (fun ev => is_removal ev = false) (trace_of dry)
  ∧ Logged Debug (msg_dry_run_path (PyStr "/tmp/work42")) ∈ trace_of dry
  ∧ Logged Debug (msg_dry_run_file A_cluster) ∈ trace_of dry.
Proof.
  intros w dry. split; [reflexivity|].
  destruct (C6_dry_run_only_logs small_handler no_ctime no_re
              (cleaner true) A_cluster w eq_refl) as [Hnone Hlogs].
  split; [exact Hnone|].
  apply (Hlogs (PyStr "/tmp/work42") None).
  vm_compute. elem_find.
Defined.

(** A record file that is not a pickle, followed by a good one. *)
Lemma C7_witness :
  let w := world_corrupt in
  let e := Exn "UnpicklingError" "invalid load key" in
  outcome_of (exec small_handler
                (_safeRemoveClusterFiles no_ctime no_re (cleaner false)
                   B_cluster) w) = Raised e
  ∧ exec small_handler (guarded_step no_ctime no_re (cleaner false) B_cluster) w
    = ([(EvStat B_cluster (inr (-200)), w);
        (EvTime (inject_Z 1000), w);
        (EvLoad B_cluster (inl e), w);
        (Logged Error (msg_unhandled e), w)], w, Returned tt)
  ∧ stat_paths
      (trace_of (exec small_handler
                   (for_each [B_cluster; A_cluster]
                      (guarded_step no_ctime no_re (cleaner false))) w))
    = [B_cluster; A_cluster].
Proof.
  intros w e.
  destruct (C7_exceptions_stop_at_the_record_boundary
              small_handler no_ctime no_re (cleaner false))
    as (Hcatch & Hpass & _).
  split; [reflexivity|]. split.
  - apply (Hcatch B_cluster w
             [(EvStat B_cluster (inr (-200)), w);
              (EvTime (inject_Z 1000), w);
              (EvLoad B_cluster (inl e), w)] w e).
    reflexivity.
  - apply (Hpass [B_cluster; A_cluster] w).
Defined.

(** [CONDOR_AGENT_SUBMIT_DIR] is unset: the lookup answers its default,
    a pair of quotes. *)
Lemma C8_witness :
  let w0 := world_unset in
  let w := (small_handler _ IsSet w0).2 in
  let w1 := (small_handler _ (Wait 600) w).2 in
  remove_char dquote_char (dq +:+ dq) = ""
  ∧ exec small_handler (pass no_ctime no_re (cleaner false)) w
    = ([(Logged Info (msg_sleeping 600), w);
        (EvWait 600, w1);
        (EvConfig "CONDOR_AGENT_SUBMIT_DIR" (dq +:+ dq) (dq +:+ dq), w1);
        (Logged Error msg_no_submit_dir, w1)], w1, Returned tt).
Proof.
  intros w0 w w1. split; [reflexivity|].
  apply (C8_missing_submit_dir_skips_the_pass small_handler no_ctime no_re
           (cleaner false) 0 w0 w w1 w1 (dq +:+ dq));
    reflexivity.
Defined.

(** The scan of the first turn comes after the sleep of that turn. *)
Lemma C9_witness :
  let t := trace_of (exec small_handler
                       (run no_ctime no_re (cleaner false) 3)
                       (world42 (-200) "" "" 0 false)) in
  t = take 6 t ++ EvGlob "/var/submit/*.cluster" [A_cluster] :: drop 7 t
  ∧ ∃ pre1 pre2,
      take 6 t = pre1 ++ EvWait 600 :: pre2
      ∧ Forall (fun e => is_isset e = false) pre2.
Proof.
  intros t.
  assert (t = take 6 t ++ EvGlob "/var/submit/*.cluster" [A_cluster]
                :: drop 7 t) as Hcut.
  { vm_compute. reflexivity. }
  split; [exact Hcut|].
  apply (C9_sleep_comes_before_the_scan small_handler no_ctime no_re
           (cleaner false) 3 (world42 (-200) "" "" 0 false)
           (take 6 t) (drop 7 t) (EvGlob "/var/submit/*.cluster" [A_cluster])).
  - exact Hcut.
  - reflexivity.
Defined.

(** A relative root: the yielded path holds the root twice. *)
Lemma C10_witness :
  let w := world_glob "sub/*.cluster" ["sub/a.cluster"] in
  outcome_of (exec small_handler (_locate "*.cluster" "sub") w)
    = Returned ["sub/sub/a.cluster"]
  ∧ starts_with "sub" "sub/a.cluster" = true
  ∧ is_absolute "sub" = false
  ∧ path_join "sub" "sub/a.cluster" ≠ "sub/a.cluster".
Proof.
  intros w.
  pose proof (C10_locate_joins_the_root_again small_handler
                "*.cluster" "sub" w) as H.
  simpl in H. destruct H as [_ Hm].
  split; [reflexivity|]. split; [reflexivity|]. split; [reflexivity|].
  destruct (Hm "sub/a.cluster") as [_ Hpre]; [elem_find|].
  destruct Hpre as [_ Hrel]; [reflexivity|discriminate|].
  destruct Hrel as (rest & _ & _ & Hne); [reflexivity|]. exact Hne.
Defined.

(** The empty root is not absolute, yet what the locator yields for it is
    the glob match itself. *)
Lemma C10_counterexample_empty_root :
  let w := world_glob "*.cluster" ["a.cluster"] in
  is_absolute "" = false
  ∧ small_handler _ (Glob (path_join "" "*.cluster")) w = (["a.cluster"], w)
  ∧ outcome_of (exec small_handler (_locate "*.cluster" "") w)
    = Returned ["a.cluster"]
  ∧ ¬ (∀ root m : string, path_join root m = m → is_absolute root = true).
Proof.
  intros w. split; [reflexivity|]. split; [reflexivity|].
  split; [reflexivity|].
  intros H. by specialize (H "" "a.cluster" eq_refl).
Qed.

(** ** The further theorems at concrete inputs *)

(** A record file exactly 300 seconds old is loaded. *)
Lemma X1_witness :
  let w := world42 700 "" "" 0 false in
  (inject_Z 300 <= inject_Z 1000 - inject_Z 700)%Q
  ∧ ∃ r, EvLoad A_cluster r
         ∈ trace_of (exec small_handler
                       (_safeRemoveClusterFiles no_ctime no_re (cleaner false)
                          A_cluster) w).
Proof.
  intros w.
  assert (inject_Z 300 <= inject_Z 1000 - inject_Z 700)%Q as Hage.
  { vm_compute. discriminate. }
  split; [exact Hage|].
  apply (X1_loaded_iff_old_enough small_handler no_ctime no_re
           (cleaner false) A_cluster w w w 700 (inject_Z 1000)).
  - reflexivity.
  - reflexivity.
  - exact Hage.
Defined.

(** The scenario in which everything is removed. *)
Lemma X2_witness :
  let w := world42 (-200) "" "" 0 false in
  let res := exec small_handler
               (_safeRemoveClusterFiles no_ctime no_re (cleaner false)
                  A_cluster) w in
  outcome_of res = Returned tt
  ∧ List.filter is_removal (trace_of res)
    = [EvRmtree (PyStr "/tmp/work42") None; EvRemove A_cluster None].
Proof.
  intros w res. subst res.
  pose (w5 := (small_handler _ (Rmtree (PyStr "/tmp/work42")) w).2).
  pose (w6 := (small_handler _ (Remove A_cluster) w5).2).
  pose (tp := history_of
                (exec small_handler (_condorJobsInQueue no_re record42) w)).
  rewrite (X2_eligible_record_is_removed small_handler no_ctime no_re
             (cleaner false) A_cluster w w w w w w5 w6 (-200) (inject_Z 1000)
             record42 tp).
  - split; [reflexivity|]. vm_compute. reflexivity.
  - reflexivity.
  - reflexivity.
  - reflexivity.
  - vm_compute. discriminate.
  - reflexivity.
  - vm_compute. reflexivity.
  - vm_compute. reflexivity.
  - vm_compute. reflexivity.
Defined.

(** The work directory is busy: the failure is logged. *)
Lemma X3_witness :
  let w := world42 (-200) "" "" 0 true in
  let res := exec small_handler
               (_safeRemoveClusterFiles no_ctime no_re (cleaner false)
                  A_cluster) w in
  let e := Exn "OSError" "[Errno 16] Device or resource busy" in
  Logged Error (msg_rmtree_failed (PyStr "/tmp/work42") e) ∈ trace_of res
  ∧ outcome_of res = Returned tt.
Proof.
  intros w res e.
  destruct (X3_removal_failures_are_logged_and_swallowed small_handler
              no_ctime no_re (cleaner false) A_cluster w)
    as (Hrmtree & _ & Hret).
  split.
  - apply Hrmtree. vm_compute. elem_find.
  - apply Hret. apply Exists_exists.
    exists (EvRmtree (PyStr "/tmp/work42") (Some e)).
    split; [vm_compute; elem_find|reflexivity].
Defined.

(** A record file that is not a pickle. *)
Lemma X4_witness :
  let res := exec small_handler
               (_safeRemoveClusterFiles no_ctime no_re (cleaner false)
                  B_cluster) world_corrupt in
  let e := Exn "UnpicklingError" "invalid load key" in
  outcome_of res = Raised e
  ∧ Forall (fun ev => is_removal ev = false) (trace_of res).
Proof.
  intros res e. split; [reflexivity|].
  by destruct (X4_a_raising_step_has_removed_nothing small_handler
                 no_ctime no_re (cleaner false) B_cluster world_corrupt e
                 eq_refl) as [Hnone _].
Defined.

(** The tree removed is the [tmpdir] of the record loaded. *)
Lemma X5_witness :
  let t := trace_of (exec small_handler
                       (_safeRemoveClusterFiles no_ctime no_re (cleaner false)
                          A_cluster) (world42 (-200) "" "" 0 false)) in
  EvRmtree (PyStr "/tmp/work42") None ∈ t
  ∧ ∃ cdata, EvLoad A_cluster (inr (PDict cdata)) ∈ t
             ∧ PyStr "/tmp/work42" = dict_get cdata "tmpdir".
Proof.
  intros t.
  assert (EvRmtree (PyStr "/tmp/work42") None ∈ t) as Hin.
  { vm_compute. elem_find. }
  split; [exact Hin|].
  destruct (X5_a_step_keeps_to_its_record small_handler no_ctime no_re
              (cleaner false) A_cluster (world42 (-200) "" "" 0 false))
    as (_ & Htree & _).
  exact (Htree _ _ Hin).
Defined.

(** Text on the error stream is logged. *)
Lemma X8_witness :
  let w := world42 (-200) "" "cannot connect" 0 false in
  let t := trace_of (exec small_handler (_condorJobsInQueue no_re record42) w)
  in
  Logged Error (msg_command_error "cannot connect") ∈ t
  ↔ "cannot connect" ≠ "".
Proof.
  intros w t.
  eapply (X8_probe_reports_the_error_stream small_handler no_re record42 w).
  vm_compute. elem_find.
Defined.

(** Jobs of another cluster only. *)
Lemma X9_witness :
  let out := "43" +:+ nl +:+ "142" +:+ nl in
  let w := world42 (-200) out "" 0 false in
  outcome_of (exec small_handler (_condorJobsInQueue no_re record42) w)
    = Returned (Some 0%nat)
  ↔ spec_line_count "42" out = 0%nat.
Proof.
  intros out w.
  eapply (X9_probe_returns_zero_iff_no_line small_handler no_re record42 w
            "42").
  - reflexivity.
  - discriminate.
  - by repeat constructor.
  - reflexivity.
  - vm_compute. elem_find.
Defined.

(** Two lines with the id, of which the pattern finds one. *)
Lemma X14_witness :
  let out := "42" +:+ nl +:+ " 42" +:+ nl in
  let w := world42 (-200) out "" 0 false in
  ∃ n, outcome_of (exec small_handler (_condorJobsInQueue no_re record42) w)
       = Returned (Some n)
       ∧ (n ≤ spec_line_count "42" out)%nat.
Proof.
  intros out w.
  eapply (X14_probe_never_overcounts small_handler no_re record42 w "42").
  - reflexivity.
  - discriminate.
  - by repeat constructor.
  - reflexivity.
  - vm_compute. elem_find.
Defined.

(** The pass over [/var/submit]. *)
Lemma X10_witness :
  let w := world42 (-200) "" "" 0 false in
  let res := exec small_handler (pass no_ctime no_re (cleaner false)) w in
  outcome_of res = Returned tt
  ∧ stat_paths (trace_of res) = [A_cluster]
  ∧ List.filter is_glob (trace_of res)
    = [EvGlob "/var/submit/*.cluster" [A_cluster]].
Proof.
  intros w res.
  pose (w1 := (small_handler _ (Wait 600) w).2).
  apply (X10_pass_processes_what_the_glob_found small_handler no_ctime
           no_re (cleaner false) w w1 w1 w1 "/var/submit" [A_cluster]).
  - reflexivity.
  - reflexivity.
  - discriminate.
  - reflexivity.
Defined.

(** After the sleep of the first turn comes the lookup. *)
Lemma X11_witness :
  let t := trace_of (exec small_handler
                       (run no_ctime no_re (cleaner false) 3)
                       (world42 (-200) "" "" 0 false)) in
  t = take 3 t ++ EvWait 600 :: drop 4 t
  ∧ ∃ v post',
      drop 4 t = EvConfig "CONDOR_AGENT_SUBMIT_DIR" (dq +:+ dq) v :: post'.
Proof.
  intros t.
  assert (t = take 3 t ++ EvWait 600 :: drop 4 t) as Hcut.
  { vm_compute. reflexivity. }
  split; [exact Hcut|].
  exact (X11_waking_goes_straight_to_the_lookup small_handler no_ctime
           no_re (cleaner false) 3 (world42 (-200) "" "" 0 false)
           (take 3 t) (drop 4 t) 600 Hcut).
Defined.

(** The flag is set after one turn. *)
Lemma X12_witness :
  let res := exec small_handler (run no_ctime no_re (cleaner false) 3)
               (world42 (-200) "" "" 0 false) in
  outcome_of res = Returned Stopped
  ∧ ∃ pre, trace_of res = pre ++ [EvIsSet true].
Proof.
  intros res.
  assert (outcome_of res = Returned Stopped) as Hstop by reflexivity.
  split; [exact Hstop|].
  destruct (X12_the_run_ends_on_the_stop_flag small_handler no_ctime no_re
              (cleaner false) 3 (world42 (-200) "" "" 0 false))
    as [Hiff _].
  exact (proj1 Hiff Hstop).
Defined.

